(** * proyecto-flask: the report generator of [app.py]

    A shallow embedding of the upload filter ([allowed_file]), the
    line-to-record pipeline ([generar_dataframe]), the in-memory export
    ([generar_reporte_memoria]) and the download endpoint ([generar]),
    followed by the properties the specification states about them.

    Conventions.
    - A Python [str] is a list of Unicode code points ([list N]); [u "abc"]
      writes an ASCII literal.  Dictionary keys and column labels built by
      the program itself ("col0", "fecha_legible", ...) are Rocq strings.
    - A Python exception is a value [Raise e] of the [result] monad;
      [try ... except] is a [match] on the result.
    - What the program takes from the Unicode character database
      ([str.lower], the decimal value of a digit, [unicodedata.normalize])
      is the interface [Unicode]; the host's time zone, the outcome of
      loading [eventos.json], the files on disk and the spreadsheet writer
      form the record [World]. *)

From Stdlib Require Import ZArith NArith List Bool String Ascii Lia.
From stdpp Require Import base option list gmap strings pretty.

Import ListNotations.
Local Open Scope N_scope.

(** ** Python values and exceptions *)

Abbreviation str := (list N).

Definition u (s : string) : str :=
  List.map N_of_ascii (list_ascii_of_string s).

Inductive exn : Type :=
  | ValueError
  | IndexError
  | KeyError
  | OSError
  | UnicodeEncodeError.

Inductive result (A : Type) : Type :=
  | Ok (a : A)
  | Raise (e : exn).

Arguments Ok {A} a.
Arguments Raise {A} e.

#[global] Instance result_ret : MRet result := fun _ a => Ok a.
#[global] Instance result_bind : MBind result := fun _ _ f m =>
  match m with
  | Ok a => f a
  | Raise e => Raise e
  end.

#[global] Instance result_fmap : FMap result := fun _ _ f m =>
  match m with
  | Ok a => Ok (f a)
  | Raise e => Raise e
  end.

(** [l[i]] on a Python list. *)
Definition getitem {A} (l : list A) (i : nat) : result A :=
  match nth_error l i with
  | Some x => Ok x
  | None => Raise IndexError
  end.

(** ** Strings *)

(** [str.isspace] on one code point: the characters Python strips. *)
Definition isspace (c : N) : bool :=
  ((0x09 <=? c) && (c <=? 0x0d)) || ((0x1c <=? c) && (c <=? 0x20))
  || (c =? 0x85) || (c =? 0xa0) || (c =? 0x1680)
  || ((0x2000 <=? c) && (c <=? 0x200a))
  || (c =? 0x2028) || (c =? 0x2029) || (c =? 0x202f) || (c =? 0x205f)
  || (c =? 0x3000).

(** Dropping the leading characters that satisfy [p], and those at both
    ends. *)
Fixpoint lstrip_by (p : N -> bool) (s : str) : str :=
  match s with
  | [] => []
  | c :: r => if p c then lstrip_by p r else s
  end.

Definition strip_by (p : N -> bool) (s : str) : str :=
  rev (lstrip_by p (rev (lstrip_by p s))).

(** [s.strip()] *)
Definition strip (s : str) : str := strip_by isspace s.

(** The white space [int] skips around a number: that of [str.isspace]
    but for the separators U+001C..U+001F. *)
Definition int_space (c : N) : bool :=
  isspace c && negb ((0x1c <=? c) && (c <=? 0x1f)).

(** [s.split(sep)] for a one-character separator. *)
Fixpoint split (sep : N) (s : str) : list str :=
  match s with
  | [] => [[]]
  | c :: r =>
      if c =? sep then [] :: split sep r
      else match split sep r with
           | h :: t => (c :: h) :: t
           | [] => [[c]]
           end
  end.

(** [sep in s] for a one-character [sep]. *)
Definition contains (sep : N) (s : str) : bool := existsb (N.eqb sep) s.

(** The text before the first [sep] and the text after it. *)
Fixpoint partition (sep : N) (s : str) : option (str * str) :=
  match s with
  | [] => None
  | c :: r =>
      if c =? sep then Some ([], r)
      else match partition sep r with
           | Some (a, b) => Some (c :: a, b)
           | None => None
           end
  end.

(** [s.rsplit(sep, 1)]: one split, at the last separator. *)
Definition rsplit1 (sep : N) (s : str) : list str :=
  match partition sep (rev s) with
  | Some (a, b) => [rev b; rev a]
  | None => [s]
  end.

Definition ascii_lower (c : N) : N :=
  if (0x41 <=? c) && (c <=? 0x5a) then c + 32 else c.

(** Unicode normalization forms accepted by [unicodedata.normalize]. *)
Inductive form : Type := NFC | NFD | NFKC | NFKD.

(** What the program asks of the Unicode character database. *)
Class Unicode : Type := {
  py_lower : str -> str;                (* str.lower *)
  uc_decimal : N -> option N;           (* value of a decimal digit *)
  normalize : form -> str -> str        (* unicodedata.normalize *)
}.

Definition is_ascii (c : N) : Prop := c < 128.

(** The facts about the database that the proofs below rely on. *)
Record UnicodeOk (U : Unicode) : Prop := {
  (* lowercasing ASCII text is lowercasing its letters A..Z *)
  lower_ascii : forall s : str, Forall is_ascii s -> py_lower s = List.map ascii_lower s;
  (* normalizing the empty string gives the empty string *)
  normalize_nil : forall f, normalize f [] = []
}.

(** A fragment of the database: exact on Basic Latin, on the Latin
    ligatures U+FB00..U+FB06 and on the fullwidth forms U+FF01..U+FF5E;
    other code points are left as they are. *)
Definition compat_decomp (c : N) : str :=
  if c =? 0xfb00 then u "ff"
  else if c =? 0xfb01 then u "fi"
  else if c =? 0xfb02 then u "fl"
  else if c =? 0xfb03 then u "ffi"
  else if c =? 0xfb04 then u "ffl"
  else if (c =? 0xfb05) || (c =? 0xfb06) then u "st"
  else if (0xff01 <=? c) && (c <=? 0xff5e) then [c - 0xfee0]
  else [c].

Definition basic_lower (c : N) : N :=
  if (0xff21 <=? c) && (c <=? 0xff3a) then c + 32 else ascii_lower c.

Definition basic_decimal (c : N) : option N :=
  if (0x30 <=? c) && (c <=? 0x39) then Some (c - 0x30)
  else if (0xff10 <=? c) && (c <=? 0xff19) then Some (c - 0xff10)
  else None.

Definition basic_normalize (f : form) (s : str) : str :=
  match f with
  | NFKC | NFKD => flat_map compat_decomp s
  | NFC | NFD => s
  end.

Definition basic_unicode : Unicode :=
  {| py_lower := List.map basic_lower;
     uc_decimal := basic_decimal;
     normalize := basic_normalize |}.

(** ** The upload filter *)

Definition ALLOWED_EXTENSIONS : gset (list N) :=
  {[ u "txt"; u "log"; u "csv" ]}.

Definition dot : N := 0x2e.

Section Upload.
Context {U : Unicode}.

(** [allowed_file(filename)] *)
Definition allowed_file (filename : str) : result bool :=
  if negb (contains dot filename) then Ok true
  else
    ext ← getitem (rsplit1 dot filename) 1;
    Ok (bool_decide (py_lower ext ∈ ALLOWED_EXTENSIONS)).

End Upload.

(** ** Integers and calendar time *)

Section Int.
Context {U : Unicode}.

(** The digits of an integer literal: decimal digits, with single
    underscores allowed between two digits. *)
Fixpoint int_digits (acc : Z) (after_digit : bool) (s : str) : option Z :=
  match s with
  | [] => if after_digit then Some acc else None
  | c :: r =>
      if c =? 0x5f then
        if after_digit then int_digits acc false r else None
      else
        match uc_decimal c with
        | Some d => int_digits (10 * acc + Z.of_N d) true r
        | None => None
        end
  end.

(** [int(s)] on a string: surrounding whitespace, an optional sign, the
    digits.  (The limit on the number of digits that recent interpreters
    apply is left out: it only turns some integers that
    [fromtimestamp] rejects anyway into a [ValueError].) *)
Definition py_int (s : str) : result Z :=
  let digits (neg : bool) (ds : str) : result Z :=
    match int_digits 0 false ds with
    | Some n => Ok (if neg then (- n)%Z else n)
    | None => Raise ValueError
    end in
  match strip_by int_space s with
  | c :: r =>
      if c =? 0x2d then digits true r
      else if c =? 0x2b then digits false r
      else digits false (c :: r)
  | [] => Raise ValueError
  end.

End Int.

Record datetime : Type := {
  year : Z; month : Z; day : Z;
  hour : Z; minute : Z; second : Z
}.

(** Days since 1970-01-01 to a date of the proleptic Gregorian calendar. *)
Definition civil_from_days (days : Z) : Z * Z * Z :=
  let z := (days + 719468)%Z in
  let era := (z / 146097)%Z in
  let doe := (z - era * 146097)%Z in
  let yoe := ((doe - doe / 1460 + doe / 36524 - doe / 146096) / 365)%Z in
  let doy := (doe - (365 * yoe + yoe / 4 - yoe / 100))%Z in
  let mp := ((5 * doy + 2) / 153)%Z in
  let d := (doy - (153 * mp + 2) / 5 + 1)%Z in
  let m := (if (mp <? 10)%Z then mp + 3 else mp - 9)%Z in
  let y := (yoe + era * 400 + (if (m <=? 2)%Z then 1 else 0))%Z in
  (y, m, d).

(** The calendar and clock reading of [t] seconds after the epoch. *)
Definition calendar (t : Z) : datetime :=
  let '(y, m, d) := civil_from_days (t / 86400) in
  let sod := (t mod 86400)%Z in
  {| year := y; month := m; day := d;
     hour := sod / 3600; minute := (sod mod 3600) / 60; second := sod mod 60 |}.

Definition MINYEAR : Z := 1.
Definition MAXYEAR : Z := 9999.

(** [datetime.fromtimestamp(ts)]: local time, [utcoffset ts] seconds east
    of UTC at that instant.  It raises when the platform's conversion
    does not take the instant ([localtime_ok], which differs between
    systems), and when the date is outside the years a [datetime] holds. *)
Definition fromtimestamp (localtime_ok : Z -> bool) (utcoffset : Z -> Z) (ts : Z)
    : result datetime :=
  let d := calendar (ts + utcoffset ts) in
  if (localtime_ok ts && ((MINYEAR <=? year d) && (year d <=? MAXYEAR)))%Z then Ok d
  else Raise ValueError.

(** ** Dictionaries, lists and data frames *)

Inductive value : Type :=
  | VStr (s : str)
  | VDatetime (d : datetime)
  | VNone.

(** A row dictionary: keys in insertion order. *)
Abbreviation dict := (list (string * value)).

(** [d[k] = v] *)
Fixpoint dict_set (k : string) (v : value) (d : dict) : dict :=
  match d with
  | [] => [(k, v)]
  | (k', v') :: r =>
      if String.eqb k k' then (k, v) :: r else (k', v') :: dict_set k v r
  end.

Fixpoint dict_get (k : string) (d : dict) : option value :=
  match d with
  | [] => None
  | (k', v) :: r => if String.eqb k k' then Some v else dict_get k r
  end.

Definition keys (d : dict) : list string := List.map fst d.

(** Position of the first [c] in [l]. *)
Fixpoint index_of (c : string) (l : list string) : option nat :=
  match l with
  | [] => None
  | x :: r => if String.eqb c x then Some O else S <$> index_of c r
  end.

Definition mem (c : string) (l : list string) : bool :=
  match index_of c l with Some _ => true | None => false end.

(** [l.remove(c)] *)
Fixpoint list_remove (c : string) (l : list string) : result (list string) :=
  match l with
  | [] => Raise ValueError
  | x :: r => if String.eqb c x then Ok r else cons x <$> list_remove c r
  end.

(** [l.index(c)] *)
Definition list_index (c : string) (l : list string) : result nat :=
  match index_of c l with
  | Some i => Ok i
  | None => Raise ValueError
  end.

(** [l.insert(i, c)]: past the end, the item is appended. *)
Definition list_insert_at (i : nat) (c : string) (l : list string) : list string :=
  take i l ++ c :: drop i l.

(** A cell is a value, or [None] where the row has no such key (NaN). *)
Abbreviation cell := (option value).

Record DataFrame : Type := {
  columns : list string;
  rows : list (list cell)
}.

(** The labels of [pd.DataFrame(datos)]: the keys of the dictionaries in
    order of first appearance. *)
Definition add_keys (cols : list string) (d : dict) : list string :=
  fold_left (fun acc k => if mem k acc then acc else acc ++ [k]) (keys d) cols.

Definition frame_columns (datos : list dict) : list string :=
  fold_left add_keys datos [].

(** [pd.DataFrame(datos)] *)
Definition frame (datos : list dict) : DataFrame :=
  let cols := frame_columns datos in
  {| columns := cols;
     rows := List.map (fun d => List.map (fun c => dict_get c d) cols) datos |}.

(** The cell of row [r] under label [c]. *)
Definition cell_at (cols : list string) (r : list cell) (c : string) : cell :=
  match index_of c cols with
  | Some i => nth i r None
  | None => None
  end.

(** [df[cols]] *)
Definition select (cols : list string) (df : DataFrame) : result DataFrame :=
  if forallb (fun c => mem c (columns df)) cols then
    Ok {| columns := cols;
          rows := List.map (fun r => List.map (cell_at (columns df) r) cols) (rows df) |}
  else Raise KeyError.

(** [df.rename(columns=m)] *)
Definition rename (m : gmap string string) (df : DataFrame) : DataFrame :=
  {| columns := List.map (fun c => default c (m !! c)) (columns df);
     rows := rows df |}.

(** [df[c] = f(df[c])], cell by cell. *)
Definition map_column (c : string) (f : cell -> cell) (df : DataFrame) : DataFrame :=
  match index_of c (columns df) with
  | Some i => {| columns := columns df; rows := List.map (alter f i) (rows df) |}
  | None => df
  end.

(** [Series.replace(t)] on one cell, for a table from strings to strings. *)
Definition replace (t : gmap (list N) (list N)) (c : cell) : cell :=
  match c with
  | Some (VStr s) =>
      match t !! s with
      | Some label => Some (VStr label)
      | None => c
      end
  | _ => c
  end.

(** ** The world outside the program *)

Abbreviation bytes := (list N).

Record World : Type := {
  (* seconds east of UTC of the host's local time at a given instant *)
  utcoffset : Z -> Z;
  (* the instants the platform's local-time conversion takes *)
  localtime_ok : Z -> bool;
  (* the files that exist, with their text as the text layer delivers it:
     decoded as UTF-8 with undecodable bytes dropped, line ends as LF *)
  files : gmap string (list N);
  (* what opening and [json.load]ing eventos.json gives *)
  eventos_json : result (gmap (list N) (list N));
  (* the text pandas writes for a timestamp, given the cells of its column *)
  strftime : list cell -> datetime -> str;
  (* the xlsx writer *)
  to_excel : DataFrame -> result bytes
}.

(** [open(path).readlines()]: every line keeps its line end. *)
Fixpoint readlines (s : str) : list str :=
  match s with
  | [] => []
  | c :: r =>
      if c =? 0x0a then [c] :: readlines r
      else match readlines r with
           | h :: t => (c :: h) :: t
           | [] => [[c]]
           end
  end.

Definition open_read (w : World) (path : string) : result str :=
  match files w !! path with
  | Some text => Ok text
  | None => Raise OSError
  end.

(** ** Ingestion: [generar_dataframe] *)

Definition pipe : N := 0x7c.

(** The key [f"col{i}"]. *)
Definition col (i : nat) : string := "col" +:+ pretty i.

Definition rename_map : gmap string string :=
  {[ "col0" := "timestamp"; "col2" := "cola";
     "col4" := "evento"; "col6" := "numero_telefono" ]}%string.

Section Ingestion.
Context {U : Unicode} (w : World).

(** [limpiar_texto(texto)] *)
Definition limpiar_texto (texto : value) : value :=
  match texto with
  | VStr s => VStr (normalize NFKC s)
  | _ => texto
  end.

(** The loop [for i, valor in enumerate(partes)], from position [i]. *)
Fixpoint llenar (i : nat) (partes : list str) (fila : dict) : dict :=
  match partes with
  | [] => fila
  | valor :: r =>
      llenar (S i) r (dict_set (col i) (limpiar_texto (VStr (strip valor))) fila)
  end.

(** The body of the loop over the lines: one dictionary per line. *)
Definition fila_de_linea (linea : str) : dict :=
  let partes := split pipe (strip linea) in
  let fila := llenar 0 partes [] in
  let fecha :=
    match (p0 ← getitem partes 0; ts ← py_int p0; fromtimestamp (localtime_ok w) (utcoffset w) ts) with
    | Ok d => VDatetime d
    | Raise _ => VNone
    end in
  dict_set "fecha_legible" fecha fila.

(** The block that moves fecha_legible next to col0. *)
Definition reordenar (df : DataFrame) : result DataFrame :=
  if mem "col0" (columns df) && mem "fecha_legible" (columns df) then
    cols ← list_remove "fecha_legible" (columns df);
    insert_at ← (fun i => i + 1)%nat <$> list_index "col0" cols;
    select (list_insert_at insert_at "fecha_legible" cols) df
  else Ok df.

Definition necesarias : list string :=
  ["col0"; "fecha_legible"; "col2"; "col4"; "col6"]%string.

(** The [try] block around eventos.json. *)
Definition traducir (df : DataFrame) : DataFrame :=
  match eventos_json w with
  | Ok traduccion_eventos =>
      if mem "evento" (columns df)
      then map_column "evento" (replace traduccion_eventos) df
      else df
  | Raise _ => df
  end.

(** The rows before column selection. *)
Definition datos_de (contenido : str) : list dict :=
  List.map fila_de_linea (readlines contenido).

(** Everything after the file has been read. *)
Definition dataframe_de (contenido : str) : result DataFrame :=
  df ← reordenar (frame (datos_de contenido));
  let columnas_finales := List.filter (fun c => mem c (columns df)) necesarias in
  df ← select columnas_finales df;
  Ok (traducir (rename rename_map df)).

(** [generar_dataframe(filepath)] *)
Definition generar_dataframe (filepath : string) : result DataFrame :=
  contenido ← open_read w filepath;
  dataframe_de contenido.

End Ingestion.

(** ** Export: [generar_reporte_memoria] *)

Definition comma : N := 0x2c.
Definition quote : N := 0x22.
Definition LF : N := 0x0a.

(** The csv writer pandas drives: comma, double quote, minimal quoting,
    doubled quotes, records ended by LF. *)
Definition special (c : N) : bool := (c =? comma) || (c =? quote) || (c =? LF).

Definition csv_field (f : str) : str :=
  if existsb special f
  then quote :: flat_map (fun c => if c =? quote then [quote; quote] else [c]) f ++ [quote]
  else f.

Fixpoint join (sep : N) (l : list str) : str :=
  match l with
  | [] => []
  | [x] => x
  | x :: r => x ++ sep :: join sep r
  end.

(** [writer.writerow(fields)]: a record made of one empty field is
    written as a pair of quotes. *)
Definition writerow (fields : list str) : str :=
  match fields with
  | [ [] ] => [quote; quote; LF]
  | _ => join comma (List.map csv_field fields) ++ [LF]
  end.

(** The cells of column [j]. *)
Definition column (j : nat) (rs : list (list cell)) : list cell :=
  List.map (fun r => nth j r None) rs.

Section Exportar.
Context (w : World).

(** The text of a cell: missing values and [None] are written empty. *)
Definition render (col_cells : list cell) (c : cell) : str :=
  match c with
  | Some (VStr s) => s
  | Some (VDatetime d) => strftime w col_cells d
  | Some VNone | None => []
  end.

Definition render_row (rs : list (list cell)) (r : list cell) : list str :=
  imap (fun j c => render (column j rs) c) r.

(** [df.to_csv(index=False)]: the header record, then one record per row. *)
Definition to_csv (df : DataFrame) : str :=
  writerow (List.map u (columns df))
  ++ flat_map (fun r => writerow (render_row (rows df) r)) (rows df).

(** UTF-8 for one code point; the surrogates have none. *)
Definition utf8_char (c : N) : result bytes :=
  if c <? 0x80 then Ok [c]
  else if c <? 0x800 then Ok [0xc0 + c / 0x40; 0x80 + c mod 0x40]
  else if (0xd800 <=? c) && (c <=? 0xdfff) then Raise UnicodeEncodeError
  else if c <? 0x10000 then
    Ok [0xe0 + c / 0x1000; 0x80 + (c / 0x40) mod 0x40; 0x80 + c mod 0x40]
  else if c <? 0x110000 then
    Ok [0xf0 + c / 0x40000; 0x80 + (c / 0x1000) mod 0x40;
        0x80 + (c / 0x40) mod 0x40; 0x80 + c mod 0x40]
  else Raise UnicodeEncodeError.

Fixpoint utf8 (s : str) : result bytes :=
  match s with
  | [] => Ok []
  | c :: r => b ← utf8_char c; bs ← utf8 r; Ok (b ++ bs)
  end.

Definition BOM : bytes := [0xef; 0xbb; 0xbf].

(** [s.encode("utf-8-sig")] *)
Definition encode_utf8_sig (s : str) : result bytes :=
  app BOM <$> utf8 s.

(** [generar_reporte_memoria(df, formato)]: the bytes of the buffer,
    read from its start. *)
Definition generar_reporte_memoria (df : DataFrame) (formato : str) : result bytes :=
  if bool_decide (formato = u "excel") then to_excel w df
  else encode_utf8_sig (to_csv df).

End Exportar.

(** ** The download endpoint *)

Inductive response : Type :=
  | Text (body : str) (status : nat)
  | Attachment (content : bytes) (download_name : string) (mimetype : string).

Definition aviso_sin_archivo : str :=
  0x274c :: u " Primero debes subir un archivo.".

Section Endpoint.
Context {U : Unicode} (w : World).

(** [generar(formato)], with the session of the request. *)
Definition generar (session : gmap string string) (formato : str) : result response :=
  let sin_archivo :=
    match session !! "last_file"%string with
    | None => true
    | Some filepath =>
        String.eqb filepath "" || negb (bool_decide (is_Some (files w !! filepath)))
    end in
  if sin_archivo then Ok (Text aviso_sin_archivo 400)
  else
    let filepath := default ""%string (session !! "last_file"%string) in
    df ← generar_dataframe w filepath;
    archivo ← generar_reporte_memoria w df formato;
    if bool_decide (formato = u "excel") then
      Ok (Attachment archivo "reporte.xlsx"
            "application/vnd.openxmlformats-officedocument.spreadsheetml.sheet")
    else
      Ok (Attachment archivo "reporte.csv" "text/csv").

End Endpoint.

(** ** A concrete world for the examples *)

Definition digit (n : Z) : N := 0x30 + Z.to_N (n mod 10).

Definition pad2 (n : Z) : str := [digit (n / 10); digit n].
Definition pad4 (n : Z) : str := [digit (n / 1000); digit (n / 100); digit (n / 10); digit n].

Definition is_midnight (c : cell) : bool :=
  match c with
  | Some (VDatetime d) => ((hour d =? 0) && (minute d =? 0) && (second d =? 0))%Z
  | _ => true
  end.

(** pandas writes a timestamp column as dates when every time in it is
    midnight, and as date and time otherwise. *)
Definition pandas_strftime (col_cells : list cell) (d : datetime) : str :=
  let fecha := pad4 (year d) ++ u "-" ++ pad2 (month d) ++ u "-" ++ pad2 (day d) in
  if forallb is_midnight col_cells then fecha
  else fecha ++ u " " ++ pad2 (hour d) ++ u ":" ++ pad2 (minute d) ++ u ":" ++ pad2 (second d).

(** A host on UTC whose conversion takes every instant that is at least
    a day into year 1 (the interpreter also reads the clock a day
    earlier); the spreadsheet writer is not modelled, its output stands
    as the signature of the container format. *)
Definition mundo (fs : gmap string (list N))
    (ej : result (gmap (list N) (list N))) : World :=
  {| utcoffset := fun _ => 0%Z;
     localtime_ok := fun t => (MINYEAR <=? year (calendar (t - 86400)))%Z;
     files := fs;
     eventos_json := ej;
     strftime := pandas_strftime;
     to_excel := fun _ => Ok (u "PK") |}.


(** ** The upload endpoint *)

Inductive method : Type := GET | POST.

(** An uploaded file: the name the client gave it, and the text that
    reading the saved copy gives (decoded as the text layer does). *)
Record upload : Type := {
  up_filename : str;
  up_texto : str
}.

(** A request to "/": its method and the form field "file", if any. *)
Record request : Type := {
  req_method : method;
  req_file : option upload
}.

(** The page [index] returns is a fixed template around three values. *)
Record pagina : Type := {
  mensaje : str;
  botones_disabled : str;
  preview_html : str
}.

Definition UPLOAD_FOLDER : string := "uploads".

(** [os.path.join(a, b)] for a relative [b]. *)
Definition path_join (a b : string) : string := a +:+ "/" +:+ b.

(** The world after [file.save(path)]. *)
Definition con_archivo (w : World) (path : string) (text : str) : World :=
  {| utcoffset := utcoffset w;
     localtime_ok := localtime_ok w;
     files := <[path := text]> (files w);
     eventos_json := eventos_json w;
     strftime := strftime w;
     to_excel := to_excel w |}.

(** [df.head(n)] *)
Definition df_head (n : nat) (df : DataFrame) : DataFrame :=
  {| columns := columns df; rows := take n (rows df) |}.

(** [df.empty]: no rows or no columns. *)
Definition df_empty (df : DataFrame) : bool :=
  match rows df, columns df with
  | [], _ | _, [] => true
  | _, _ => false
  end.

Definition vista_vacia : str :=
  u "<p class='text-gray-500'>Sube un archivo para ver la vista previa aqu"
  ++ [0xed] ++ u ".</p>".

Definition aviso_no_permitido : str :=
  [0x26a0; 0xfe0f] ++ u " Tipo de archivo no permitido.".

Definition aviso_subido (filename : string) : str :=
  [0x2705] ++ u " Archivo <b>" ++ u filename ++ u "</b> subido con "
  ++ [0xe9] ++ u "xito.".

(** Whether [session.get("last_file")] is true: a path that is not empty. *)
Definition hay_archivo (session : gmap string string) : bool :=
  match session !! "last_file"%string with
  | Some p => negb (String.eqb p "")
  | None => false
  end.

Definition pagina_de (session : gmap string string) (m p : str) : pagina :=
  {| mensaje := m;
     botones_disabled :=
       if hay_archivo session then [] else u "opacity-50 pointer-events-none";
     preview_html := p |}.

Section Subida.
Context {U : Unicode}.
(* werkzeug's [secure_filename] and pandas' [to_html] with the arguments
   the program passes *)
Context (secure_filename : str -> string) (to_html : DataFrame -> str).

(** [index()]: the files and the session after the request, and the page
    or the exception.  Saving the upload is taken to succeed. *)
Definition index (w : World) (session : gmap string string) (req : request)
    : World * gmap string string * result pagina :=
  match req_method req, req_file req with
  | POST, Some file =>
      let permitido :=
        match up_filename file with
        | [] => Ok false
        | _ :: _ => allowed_file (up_filename file)
        end in
      match permitido with
      | Raise e => (w, session, Raise e)
      | Ok false => (w, session, Ok (pagina_de session aviso_no_permitido vista_vacia))
      | Ok true =>
          let filename :=
            let s := secure_filename (up_filename file) in
            if String.eqb s "" then "queue_log"%string else s in
          let filepath := path_join UPLOAD_FOLDER filename in
          let w' := con_archivo w filepath (up_texto file) in
          let session' := <["last_file"%string := filepath]> session in
          match generar_dataframe w' filepath with
          | Raise e => (w', session', Raise e)
          | Ok df =>
              (w', session',
               Ok (pagina_de session' (aviso_subido filename)
                     (if negb (df_empty df) then to_html (df_head 20 df)
                      else vista_vacia)))
          end
      end
  | _, _ => (w, session, Ok (pagina_de session [] vista_vacia))
  end.

End Subida.

(** ** Notions used to state the properties *)

(** The frame with labels [cols] that tabulates the dictionaries. *)
Definition tab (cols : list string) (datos : list dict) : DataFrame :=
  {| columns := cols;
     rows := List.map (fun d => List.map (fun c => dict_get c d) cols) datos |}.

(** The first pipe-delimited field of a line, as the program takes it. *)
Definition primer_campo (linea : str) : str :=
  hd [] (split pipe (strip linea)).

(** The label a kept column ends up with. *)
Definition renombrar (c : string) : string := default c (rename_map !! c).

(** The columns kept for the rows [datos], before renaming. *)
Definition finales (datos : list dict) : list string :=
  List.filter (fun c => mem c (frame_columns datos)) necesarias.

Definition pick (b : bool) (c : string) : list string := if b then [c] else [].

(** What the translation step makes of the cell [x] of source column [c]. *)
Definition traducida (w : World) (c : string) (x : cell) : cell :=
  match eventos_json w with
  | Ok t => if String.eqb c "col4" then replace t x else x
  | Raise _ => x
  end.

(** The output row of one dictionary. *)
Definition fila_final (w : World) (cols : list string) (d : dict) : list cell :=
  List.map (fun c => traducida w c (dict_get c d)) cols.

(** The frame the rows [datos] lead to. *)
Definition esperado (w : World) (datos : list dict) : DataFrame :=
  {| columns := List.map renombrar (finales datos);
     rows := List.map (fila_final w (finales datos)) datos |}.

(** A line that is not empty once trimmed. *)
Definition no_vacia (linea : str) : bool :=
  match strip linea with
  | [] => false
  | _ :: _ => true
  end.

(** A host on UTC without eventos.json. *)
Definition mundo_sin_eventos : World := mundo ∅ (Raise OSError).

(** The scenario of the specification. *)
Definition escenario_linea : str := u "1700000000|x|queueA|y|EVT1|z|5551234".

Definition escenario_mundo : World :=
  mundo {[ "uploads/queue_log"%string := escenario_linea ++ [0x0a] ]}
        (Ok {[ u "EVT1" := u "Login" ]}).

(** A code point that has a UTF-8 encoding: any but the surrogates. *)
Definition es_escalar (c : N) : Prop :=
  c < 0xd800 \/ (0xe000 <= c /\ c < 0x110000).

(** The frame of the scenario. *)
Definition escenario_df : DataFrame :=
  {| columns := ["timestamp"; "fecha_legible"; "cola"; "evento";
                 "numero_telefono"]%string;
     rows := [[Some (VStr (u "1700000000"));
               Some (VDatetime {| year := 2023; month := 11; day := 14;
                                  hour := 22; minute := 13; second := 20 |});
               Some (VStr (u "queueA"));
               Some (VStr (u "Login"));
               Some (VStr (u "5551234"))]] |}.

(** *** Reading a CSV export back

    The program has no reader; this one is the reference against which
    the export is checked.  It reads the dialect the writer produces:
    fields separated by commas, records ended by LF, a field in double
    quotes may hold commas, line ends and doubled quotes.  A line with
    nothing on it is the record without fields. *)

Inductive estado : Type :=
  | Inicio          (* at the start of a record *)
  | InicioCampo     (* at the start of a field, after a comma *)
  | EnCampo         (* inside a field without quotes *)
  | Citado          (* inside a quoted field *)
  | CitaEnCitado.   (* after a quote inside a quoted field *)

(** [campo] is the current field and [fila] the fields before it, both
    most recent first. *)
Fixpoint leer (st : estado) (campo : str) (fila : list str) (s : str)
    : list (list str) :=
  let cerrada := rev (rev campo :: fila) in
  match s with
  | [] => match st with Inicio => [] | _ => [cerrada] end
  | c :: r =>
      match st with
      | Inicio | InicioCampo =>
          if c =? LF then
            match st with Inicio => [] | _ => cerrada end :: leer Inicio [] [] r
          else if c =? comma then leer InicioCampo [] (rev campo :: fila) r
          else if c =? quote then leer Citado [] fila r
          else leer EnCampo [c] fila r
      | EnCampo =>
          if c =? LF then cerrada :: leer Inicio [] [] r
          else if c =? comma then leer InicioCampo [] (rev campo :: fila) r
          else leer EnCampo (c :: campo) fila r
      | Citado =>
          if c =? quote then leer CitaEnCitado campo fila r
          else leer Citado (c :: campo) fila r
      | CitaEnCitado =>
          if c =? quote then leer Citado (c :: campo) fila r
          else if c =? LF then cerrada :: leer Inicio [] [] r
          else if c =? comma then leer InicioCampo [] (rev campo :: fila) r
          else leer EnCampo (c :: campo) fila r
      end
  end.

Definition leer_csv (s : str) : list (list str) := leer Inicio [] [] s.

(** A continuation byte of UTF-8. *)
Definition cont (b : N) : bool := (0x80 <=? b) && (b <? 0xc0).

Fixpoint decode_utf8 (bs : bytes) : option str :=
  match bs with
  | [] => Some []
  | b0 :: r0 =>
      if b0 <? 0x80 then cons b0 <$> decode_utf8 r0
      else if b0 <? 0xc0 then None
      else if b0 <? 0xe0 then
        match r0 with
        | b1 :: r1 =>
            if cont b1
            then cons ((b0 - 0xc0) * 0x40 + (b1 - 0x80)) <$> decode_utf8 r1
            else None
        | _ => None
        end
      else if b0 <? 0xf0 then
        match r0 with
        | b1 :: b2 :: r2 =>
            if cont b1 && cont b2
            then cons ((b0 - 0xe0) * 0x1000 + (b1 - 0x80) * 0x40 + (b2 - 0x80))
                   <$> decode_utf8 r2
            else None
        | _ => None
        end
      else
        match r0 with
        | b1 :: b2 :: b3 :: r3 =>
            if cont b1 && cont b2 && cont b3
            then cons ((b0 - 0xf0) * 0x40000 + (b1 - 0x80) * 0x1000
                       + (b2 - 0x80) * 0x40 + (b3 - 0x80))
                   <$> decode_utf8 r3
            else None
        | _ => None
        end
  end.

(** Decoding with the byte-order mark skipped when there is one. *)
Definition decode_utf8_sig (bs : bytes) : option str :=
  match bs with
  | b0 :: b1 :: b2 :: r =>
      if (b0 =? 0xef) && (b1 =? 0xbb) && (b2 =? 0xbf) then decode_utf8 r
      else decode_utf8 bs
  | _ => decode_utf8 bs
  end.

(** The table read back from the bytes of an export. *)
Definition releer (bs : bytes) : option (list (list str)) :=
  leer_csv <$> decode_utf8_sig bs.

(** The table of texts a frame is written as: labels, then rows. *)
Definition textos (w : World) (df : DataFrame) : list (list str) :=
  List.map u (columns df) :: List.map (render_row w (rows df)) (rows df).

(** Day number of a date of the proleptic Gregorian calendar, counted
    from 1970-01-01: the usual formula, against which [civil_from_days]
    is checked. *)
Definition days_from_civil (y m d : Z) : Z :=
  let y' := (if m <=? 2 then y - 1 else y)%Z in
  let era := (y' / 400)%Z in
  let yoe := (y' - era * 400)%Z in
  let mp := (if m <=? 2 then m + 9 else m - 3)%Z in
  let doy := ((153 * mp + 2) / 5 + d - 1)%Z in
  let doe := (yoe * 365 + yoe / 4 - yoe / 100 + doy)%Z in
  (era * 146097 + doe - 719468)%Z.


(** The name an upload is saved under: [secure_filename(f) or "queue_log"]. *)
Definition nombre_guardado (secure_filename : str -> string) (f : str) : string :=
  if String.eqb (secure_filename f) "" then "queue_log"%string
  else secure_filename f.

(** The attachment the endpoint builds from exported bytes. *)
Definition adjunto (formato : str) (archivo : bytes) : response :=
  if bool_decide (formato = u "excel")
  then Attachment archivo "reporte.xlsx"
         "application/vnd.openxmlformats-officedocument.spreadsheetml.sheet"
  else Attachment archivo "reporte.csv" "text/csv".

(** The parse without the block that moves fecha_legible. *)
Definition dataframe_sin_reordenar {U : Unicode} (w : World) (contenido : str)
    : result DataFrame :=
  let df := frame (datos_de w contenido) in
  let columnas_finales := List.filter (fun c => mem c (columns df)) necesarias in
  df ← select columnas_finales df;
  Ok (traducir w (rename rename_map df)).

(** What a row dictionary holds under the five kept keys. *)
Definition retenido (d : dict) : list cell :=
  List.map (fun c => dict_get c d) necesarias.

(** A timestamp reading that is a date and a time of day. *)
Definition fecha_valida (d : datetime) : Prop :=
  (1 <= month d <= 12)%Z /\ (1 <= day d <= 31)%Z
  /\ (0 <= hour d < 24)%Z /\ (0 <= minute d < 60)%Z /\ (0 <= second d < 60)%Z.

(** The instant a reading denotes, in seconds from 1970-01-01 00:00:00
    on the same clock. *)
Definition instante (d : datetime) : Z :=
  (days_from_civil (year d) (month d) (day d) * 86400
   + hour d * 3600 + minute d * 60 + second d)%Z.

(** Stand-ins for the two library functions of [index], for the examples:
    [secure_de_prueba] keeps the letters, digits, dots, dashes and
    underscores of ASCII, as [secure_filename] does on a name made of
    those only and not bounded by dots or underscores; [html_de_prueba]
    only records how many rows it was given. *)
Definition seguro (c : N) : bool :=
  ((0x30 <=? c) && (c <=? 0x39)) || ((0x41 <=? c) && (c <=? 0x5a))
  || ((0x61 <=? c) && (c <=? 0x7a))
  || (c =? 0x2d) || (c =? 0x2e) || (c =? 0x5f).

Definition secure_de_prueba (f : str) : string :=
  string_of_list_ascii (List.map ascii_of_N (List.filter seguro f)).

Definition html_de_prueba (df : DataFrame) : str :=
  u "<table rows=" ++ u (pretty (length (rows df))) ++ u ">".

Definition sesion_escenario : gmap string string :=
  {[ "last_file"%string := "uploads/queue_log"%string ]}.

Definition subida_escenario : upload :=
  {| up_filename := u "queue.LOG"; up_texto := escenario_linea ++ [0x0a] |}.

(** * Properties *)

(** ** Calendar time *)

Example calendar_ex : calendar 1700000000 =
  {| year := 2023; month := 11; day := 14; hour := 22; minute := 13; second := 20 |}.
Proof. reflexivity. Qed.

Example calendar_epoch : calendar 0 =
  {| year := 1970; month := 1; day := 1; hour := 0; minute := 0; second := 0 |}.
Proof. reflexivity. Qed.

Example calendar_before_epoch : calendar (-1) =
  {| year := 1969; month := 12; day := 31; hour := 23; minute := 59; second := 59 |}.
Proof. reflexivity. Qed.

Example calendar_leap_day : calendar 951825600 =
  {| year := 2000; month := 2; day := 29; hour := 12; minute := 0; second := 0 |}.
Proof. reflexivity. Qed.

Example calendar_last : calendar 253402300799 =
  {| year := 9999; month := 12; day := 31; hour := 23; minute := 59; second := 59 |}.
Proof. reflexivity. Qed.

(** ** Integers, on the cases the interpreter was observed on *)

Example py_int_plain : @py_int basic_unicode (u "1700000000") = Ok 1700000000%Z.
Proof. reflexivity. Qed.

Example py_int_spaces_underscore : @py_int basic_unicode (u " 1_0 ") = Ok 10%Z.
Proof. reflexivity. Qed.

Example py_int_signs :
  @py_int basic_unicode (u "+5") = Ok 5%Z /\ @py_int basic_unicode (u "-007") = Ok (-7)%Z.
Proof. split; reflexivity. Qed.

Example py_int_fullwidth : @py_int basic_unicode [0xff11; 0xff12; 0xff13] = Ok 123%Z.
Proof. reflexivity. Qed.

Example py_int_rejects :
  @py_int basic_unicode [] = Raise ValueError
  /\ @py_int basic_unicode (u "abc") = Raise ValueError
  /\ @py_int basic_unicode (u "_5") = Raise ValueError
  /\ @py_int basic_unicode (u "5_") = Raise ValueError
  /\ @py_int basic_unicode (u "5__0") = Raise ValueError
  /\ @py_int basic_unicode (u "+ 5") = Raise ValueError
  /\ @py_int basic_unicode (u "1.0") = Raise ValueError
  /\ @py_int basic_unicode [0x35; 0x1c] = Raise ValueError.
Proof. repeat split; reflexivity. Qed.

Ltac div_lia := zify; Z.to_euclidean_division_equations; lia.

(** [civil_from_days] gives a month and a day of the month, and the date
    it gives has the day number it was computed from. *)
Lemma civil_from_days_correct (z : Z) :
  let '(y, m, d) := civil_from_days z in
  (1 <= m <= 12)%Z /\ (1 <= d <= 31)%Z /\ days_from_civil y m d = z.
Proof.
  unfold civil_from_days, days_from_civil. cbv zeta.
  set (zz := (z + 719468)%Z).
  set (era := (zz / 146097)%Z).
  set (doe := (zz - era * 146097)%Z).
  set (yoe := ((doe - doe / 1460 + doe / 36524 - doe / 146096) / 365)%Z).
  set (doy := (doe - (365 * yoe + yoe / 4 - yoe / 100))%Z).
  set (mp := ((5 * doy + 2) / 153)%Z).
  assert (Hdoe : (0 <= doe <= 146096)%Z) by (subst doe era; div_lia).
  assert (Hyoe : (0 <= yoe <= 399)%Z) by (subst yoe; div_lia).
  assert (Hdoy : (0 <= doy <= 365)%Z) by (subst doy yoe; div_lia).
  assert (Hmp : (0 <= mp <= 11)%Z) by (subst mp; div_lia).
  assert (Hd : (1 <= doy - (153 * mp + 2) / 5 + 1 <= 31)%Z) by (subst mp; div_lia).
  destruct (Z.ltb_spec mp 10) as [H|H].
  - destruct (Z.leb_spec (mp + 3) 2) as [H2|H2]; [lia|].
    split; [lia|]. split; [exact Hd|].
    replace (yoe + era * 400 + 0)%Z with (yoe + era * 400)%Z by lia.
    replace ((yoe + era * 400) / 400)%Z with era by div_lia.
    replace (mp + 3 - 3)%Z with mp by lia.
    replace (yoe + era * 400 - era * 400)%Z with yoe by lia.
    replace ((153 * mp + 2) / 5 + (doy - (153 * mp + 2) / 5 + 1) - 1)%Z
      with doy by lia.
    subst doy doe zz. lia.
  - destruct (Z.leb_spec (mp - 9) 2) as [H2|H2]; [|lia].
    split; [lia|]. split; [exact Hd|].
    replace (yoe + era * 400 + 1 - 1)%Z with (yoe + era * 400)%Z by lia.
    replace ((yoe + era * 400) / 400)%Z with era by div_lia.
    replace (mp - 9 + 9)%Z with mp by lia.
    replace (yoe + era * 400 - era * 400)%Z with yoe by lia.
    replace ((153 * mp + 2) / 5 + (doy - (153 * mp + 2) / 5 + 1) - 1)%Z
      with doy by lia.
    subst doy doe zz. lia.
Qed.

(** The reading [calendar t] is a date and a time of day, and it denotes
    the instant [t]. *)
Lemma calendar_correct (t : Z) :
  let d := calendar t in
  (1 <= month d <= 12)%Z /\ (1 <= day d <= 31)%Z
  /\ (0 <= hour d < 24)%Z /\ (0 <= minute d < 60)%Z /\ (0 <= second d < 60)%Z
  /\ (days_from_civil (year d) (month d) (day d) * 86400
      + hour d * 3600 + minute d * 60 + second d = t)%Z.
Proof.
  unfold calendar. pose proof (civil_from_days_correct (t / 86400)) as H.
  destruct (civil_from_days (t / 86400)) as [[y m] d].
  destruct H as (Hm & Hd & Hz). cbn [year month day hour minute second].
  rewrite Hz. repeat split; try lia; div_lia.
Qed.

(** ** Strings *)

Lemma contains_In (c : N) (s : str) : contains c s = true <-> In c s.
Proof.
  unfold contains. rewrite existsb_exists. split.
  - intros (x & Hx & He). apply N.eqb_eq in He. now subst.
  - intros H. exists c. split; [assumption | apply N.eqb_refl].
Qed.

Lemma partition_Some (sep : N) (s a b : str) :
  partition sep s = Some (a, b) <-> s = a ++ sep :: b /\ ~ In sep a.
Proof.
  revert a b. induction s as [|c r IH]; intros a b; simpl.
  - split; [discriminate|]. intros [H _]. destruct a; discriminate.
  - destruct (N.eqb_spec c sep) as [->|Hne].
    + split.
      * intros [= <- <-]. split; [reflexivity | intros []].
      * intros [H Hn]. destruct a as [|x a]; simpl in H.
        -- now injection H as ->.
        -- injection H as -> _. exfalso. apply Hn. now left.
    + destruct (partition sep r) as [[a' b']|] eqn:E.
      * split.
        -- intros [= <- <-]. destruct (proj1 (IH a' b') eq_refl) as [-> Hn].
           split; [reflexivity|]. intros [->|H]; [now apply Hne | now apply Hn].
        -- intros [H Hn]. destruct a as [|x a]; simpl in H.
           ++ injection H as -> _. now destruct Hne.
           ++ injection H as -> H.
              assert (Hp : Some (a', b') = Some (a, b)).
              { apply IH. split; [assumption|]. intros Hi. apply Hn. now right. }
              now injection Hp as -> ->.
      * split; [discriminate|]. intros [H Hn]. destruct a as [|x a]; simpl in H.
        -- injection H as -> _. now destruct Hne.
        -- injection H as -> H. exfalso.
           assert (Hp : None = Some (a, b)).
           { apply IH. split; [assumption|]. intros Hi. apply Hn. now right. }
           discriminate.
Qed.

Lemma partition_None (sep : N) (s : str) :
  partition sep s = None <-> ~ In sep s.
Proof.
  induction s as [|c r IH]; simpl.
  - split; [intros _ [] | reflexivity].
  - destruct (N.eqb_spec c sep) as [->|Hne].
    + split; [discriminate|]. intros H. exfalso. apply H. now left.
    + destruct (partition sep r) as [[a b]|].
      * split; [discriminate|]. intros H. exfalso.
        assert (Hr : ~ In sep r) by (intros Hi; apply H; now right).
        apply IH in Hr. discriminate.
      * split; [|reflexivity]. intros _ [H|H]; [now apply Hne|].
        now apply (proj1 IH).
Qed.

(** [rsplit1] cuts at the last separator. *)
Lemma rsplit1_last (sep : N) (pre ext : str) :
  ~ In sep ext -> rsplit1 sep (pre ++ sep :: ext) = [pre; ext].
Proof.
  intros Hn. unfold rsplit1.
  assert (E : partition sep (rev (pre ++ sep :: ext)) = Some (rev ext, rev pre)).
  { apply partition_Some. split.
    - rewrite rev_app_distr. simpl. now rewrite <- app_assoc.
    - now rewrite <- in_rev. }
  rewrite E. now rewrite !rev_involutive.
Qed.

Lemma last_sep_exists (sep : N) (s : str) :
  In sep s -> exists pre ext, s = pre ++ sep :: ext /\ ~ In sep ext.
Proof.
  intros Hi. destruct (partition sep (rev s)) as [[a b]|] eqn:E.
  - apply partition_Some in E as [E Hn]. exists (rev b), (rev a). split.
    + rewrite <- (rev_involutive s), E, rev_app_distr. simpl.
      now rewrite <- app_assoc.
    + now rewrite <- in_rev.
  - apply partition_None in E. exfalso. apply E. now rewrite <- in_rev.
Qed.

Lemma last_sep_unique (sep : N) (p1 e1 p2 e2 : str) :
  p1 ++ sep :: e1 = p2 ++ sep :: e2 -> ~ In sep e1 -> ~ In sep e2 ->
  p1 = p2 /\ e1 = e2.
Proof.
  intros E H1 H2.
  assert (R : [p1; e1] = [p2; e2]).
  { rewrite <- (rsplit1_last sep p1 e1 H1), <- (rsplit1_last sep p2 e2 H2).
    now rewrite E. }
  now injection R.
Qed.

(** ** The fragment of the Unicode database *)

Lemma basic_lower_ascii (c : N) : is_ascii c -> basic_lower c = ascii_lower c.
Proof.
  unfold is_ascii, basic_lower. intros H.
  destruct (N.leb_spec 0xff21 c); [lia | reflexivity].
Qed.

Lemma basic_unicode_ok : UnicodeOk basic_unicode.
Proof.
  split.
  - intros s Hs. simpl. apply map_ext_in. intros c Hc.
    apply basic_lower_ascii. rewrite List.Forall_forall in Hs. now apply Hs.
  - intros f. now destruct f.
Qed.

(** ** The upload filter *)

Lemma elem_allowed (s : str) :
  s ∈ ALLOWED_EXTENSIONS <-> s = u "txt" \/ s = u "log" \/ s = u "csv".
Proof.
  unfold ALLOWED_EXTENSIONS. rewrite !elem_of_union, !elem_of_singleton. tauto.
Qed.

Lemma ascii_lower_dot (c : N) : ascii_lower c = dot -> c = dot.
Proof.
  unfold ascii_lower, dot.
  destruct (N.leb_spec 0x41 c) as [H1|H1];
    destruct (N.leb_spec c 0x5a) as [H2|H2]; simpl; lia.
Qed.

Lemma lower_keeps_dots (e e' : str) :
  List.map ascii_lower e = List.map ascii_lower e' -> In dot e' -> In dot e.
Proof.
  intros E Hi. apply (in_map ascii_lower) in Hi. rewrite <- E in Hi.
  apply in_map_iff in Hi as (x & Hx & Hin).
  change (ascii_lower dot) with dot in Hx. apply ascii_lower_dot in Hx. now subst.
Qed.

Section UploadProps.
Context {U : Unicode}.

Lemma allowed_file_no_dot (filename : str) :
  ~ In dot filename -> allowed_file filename = Ok true.
Proof.
  intros H. unfold allowed_file.
  destruct (contains dot filename) eqn:E; [|reflexivity].
  apply contains_In in E. contradiction.
Qed.

Lemma allowed_file_dot (pre ext : str) :
  ~ In dot ext ->
  allowed_file (pre ++ dot :: ext)
  = Ok (bool_decide (py_lower ext ∈ ALLOWED_EXTENSIONS)).
Proof.
  intros H. unfold allowed_file.
  assert (E : contains dot (pre ++ dot :: ext) = true).
  { apply contains_In, in_or_app. right. now left. }
  rewrite E, (rsplit1_last dot pre ext H). reflexivity.
Qed.

(** C10.  [allowed_file] never raises; it accepts a name exactly when the
    name has no dot or the text after its last dot, lowercased, is txt,
    log or csv.  A name that ends in a dot is rejected, a name without a
    dot is accepted, and two extensions that differ in letter case only
    are treated alike. *)
Theorem allowed_file_spec (HU : UnicodeOk U) (filename : str) :
  (exists b, allowed_file filename = Ok b)
  /\ (allowed_file filename = Ok true <->
        ~ In dot filename \/
        exists pre ext, filename = pre ++ dot :: ext /\ ~ In dot ext /\
          (py_lower ext = u "txt" \/ py_lower ext = u "log" \/ py_lower ext = u "csv"))
  /\ allowed_file (filename ++ [dot]) = Ok false
  /\ (~ In dot filename -> allowed_file filename = Ok true)
  /\ (forall ext ext' : str,
        ~ In dot ext -> Forall is_ascii ext -> Forall is_ascii ext' ->
        List.map ascii_lower ext = List.map ascii_lower ext' ->
        allowed_file (filename ++ dot :: ext) = allowed_file (filename ++ dot :: ext')).
Proof.
  assert (Hiff : allowed_file filename = Ok true <->
        ~ In dot filename \/
        exists pre ext, filename = pre ++ dot :: ext /\ ~ In dot ext /\
          (py_lower ext = u "txt" \/ py_lower ext = u "log" \/ py_lower ext = u "csv")).
  { destruct (in_dec N.eq_dec dot filename) as [Hi|Hn].
    - destruct (last_sep_exists dot filename Hi) as (pre & ext & -> & Hext).
      rewrite (allowed_file_dot pre ext Hext). split.
      + intros [= Hb]. apply bool_decide_eq_true in Hb. right.
        exists pre, ext. split; [reflexivity|]. split; [assumption|].
        now apply elem_allowed.
      + intros [Hn | (pre' & ext' & E & Hext' & Hin)].
        * exfalso. apply Hn, in_or_app. right. now left.
        * destruct (last_sep_unique dot pre ext pre' ext' E Hext Hext') as [_ <-].
          f_equal. apply bool_decide_eq_true. now apply elem_allowed.
    - rewrite (allowed_file_no_dot filename Hn). split; [now left | reflexivity]. }
  split; [|split; [exact Hiff|split; [|split]]].
  - destruct (in_dec N.eq_dec dot filename) as [Hi|Hn].
    + destruct (last_sep_exists dot filename Hi) as (pre & ext & -> & Hext).
      rewrite (allowed_file_dot pre ext Hext). eauto.
    + rewrite (allowed_file_no_dot filename Hn). eauto.
  - rewrite (allowed_file_dot filename [] (fun H => H)).
    rewrite (lower_ascii U HU []) by constructor. reflexivity.
  - apply allowed_file_no_dot.
  - intros ext ext' Hext Ha Ha' E.
    assert (Hext' : ~ In dot ext') by (intros Hi; apply Hext; now apply (lower_keeps_dots ext ext')).
    rewrite (allowed_file_dot filename ext Hext), (allowed_file_dot filename ext' Hext').
    now rewrite (lower_ascii U HU ext Ha), (lower_ascii U HU ext' Ha'), E.
Qed.

End UploadProps.

Lemma allowed_file_spec_witness :
  UnicodeOk basic_unicode
  /\ @allowed_file basic_unicode (u "informe.TXT") = Ok true
  /\ @allowed_file basic_unicode (u "informe.TXT" ++ [dot]) = Ok false.
Proof.
  split; [exact basic_unicode_ok|].
  destruct (@allowed_file_spec basic_unicode basic_unicode_ok (u "informe.TXT"))
    as (_ & Hiff & Hdot & _).
  split; [|exact Hdot].
  apply Hiff. right. exists (u "informe"), (u "TXT").
  split; [reflexivity|]. split; [|left; reflexivity].
  vm_compute. intuition discriminate.
Defined.

(** ** Lists and dictionaries *)

Lemma index_of_In (c : string) (l : list string) :
  In c l -> exists i, index_of c l = Some i.
Proof.
  induction l as [|x r IH]; simpl; [intros []|]. intros H.
  destruct (String.eqb_spec c x) as [->|Hne]; [eauto|].
  destruct H as [->|H]; [congruence|].
  destruct (IH H) as [i ->]. eauto.
Qed.

Lemma index_of_nth (c : string) (l : list string) (i : nat) :
  index_of c l = Some i -> nth_error l i = Some c.
Proof.
  revert i. induction l as [|x r IH]; simpl; intros i; [discriminate|].
  destruct (String.eqb_spec c x) as [->|Hne].
  - now intros [= <-].
  - destruct (index_of c r) as [j|]; simpl; [|discriminate].
    intros [= <-]. now apply IH.
Qed.

Lemma mem_In (c : string) (l : list string) : mem c l = true <-> In c l.
Proof.
  unfold mem. split.
  - destruct (index_of c l) as [i|] eqn:E; [|discriminate].
    intros _. eapply nth_error_In, index_of_nth, E.
  - intros H. now destruct (index_of_In c l H) as [i ->].
Qed.

Lemma mem_ext (l l' : list string) :
  (forall c, In c l <-> In c l') -> forall c, mem c l = mem c l'.
Proof.
  intros H c. apply eq_true_iff_eq. now rewrite !mem_In.
Qed.

Lemma list_remove_ok (c : string) (l : list string) :
  In c l ->
  exists l', list_remove c l = Ok l'
    /\ (forall x, In x l' -> In x l)
    /\ (forall x, x <> c -> In x l -> In x l').
Proof.
  induction l as [|y r IH]; simpl; [intros []|]. intros H.
  destruct (String.eqb_spec c y) as [->|Hne].
  - exists r. split; [reflexivity|]. split.
    + intros x Hx. now right.
    + intros x Hx [->|Hi]; [congruence | assumption].
  - destruct H as [->|H]; [congruence|].
    destruct (IH H) as (l' & -> & Hsub & Hsup). exists (y :: l').
    split; [reflexivity|]. split.
    + intros x [->|Hx]; [now left | right; now apply Hsub].
    + intros x Hx [->|Hi]; [now left | right; now apply Hsup].
Qed.

Lemma list_index_ok (c : string) (l : list string) :
  In c l -> exists i, list_index c l = Ok i.
Proof.
  intros H. unfold list_index. destruct (index_of_In c l H) as [i ->]. eauto.
Qed.

Lemma In_insert_at (i : nat) (c x : string) (l : list string) :
  In x (list_insert_at i c l) <-> x = c \/ In x l.
Proof.
  unfold list_insert_at. rewrite <- (take_drop i l) at 3.
  rewrite !in_app_iff. simpl. intuition congruence.
Qed.

Lemma dict_get_set (k k' : string) (v : value) (d : dict) :
  dict_get k (dict_set k' v d) = if String.eqb k k' then Some v else dict_get k d.
Proof.
  induction d as [|[k0 v0] r IH]; simpl.
  - reflexivity.
  - destruct (String.eqb_spec k' k0) as [->|Hne]; simpl.
    + now destruct (String.eqb k k0).
    + destruct (String.eqb_spec k k0) as [->|Hne'].
      * destruct (String.eqb_spec k0 k'); [congruence | reflexivity].
      * exact IH.
Qed.

Lemma keys_set (k c : string) (v : value) (d : dict) :
  In c (keys (dict_set k v d)) <-> c = k \/ In c (keys d).
Proof.
  unfold keys. induction d as [|[k0 v0] r IH]; simpl.
  - intuition.
  - destruct (String.eqb_spec k k0) as [->|Hne]; simpl.
    + intuition.
    + rewrite IH. intuition.
Qed.

Lemma dict_get_keys (k : string) (d : dict) :
  In k (keys d) <-> dict_get k d <> None.
Proof.
  unfold keys. induction d as [|[k0 v0] r IH]; simpl.
  - intuition.
  - destruct (String.eqb_spec k k0) as [->|Hne].
    + split; [discriminate | now left].
    + rewrite <- IH. intuition congruence.
Qed.

(** ** Data frames *)

Lemma cell_at_tab (cols : list string) (d : dict) (c : string) :
  In c cols ->
  cell_at cols (List.map (fun c => dict_get c d) cols) c = dict_get c d.
Proof.
  intros H. unfold cell_at. destruct (index_of_In c cols H) as [i E].
  rewrite E. apply index_of_nth in E.
  apply nth_error_nth.
  now rewrite nth_error_map, E.
Qed.

Lemma select_tab (cols cols' : list string) (datos : list dict) :
  (forall c, In c cols' -> In c cols) ->
  select cols' (tab cols datos) = Ok (tab cols' datos).
Proof.
  intros H. unfold select. simpl.
  assert (E : forallb (fun c => mem c cols) cols' = true).
  { apply forallb_forall. intros c Hc. now apply mem_In, H. }
  rewrite E. unfold tab. do 2 f_equal.
  rewrite List.map_map. apply map_ext. intros d.
  apply map_ext_in. intros c Hc. now apply cell_at_tab, H.
Qed.

Lemma add_keys_In (cols : list string) (d : dict) (c : string) :
  In c (add_keys cols d) <-> In c cols \/ In c (keys d).
Proof.
  unfold add_keys. generalize (keys d) as ks. intros ks. revert cols.
  induction ks as [|k r IH]; intros cols; simpl.
  - intuition.
  - rewrite IH. destruct (mem k cols) eqn:E.
    + apply mem_In in E. intuition congruence.
    + rewrite in_app_iff. simpl. intuition.
Qed.

Lemma frame_columns_In (datos : list dict) (c : string) :
  In c (frame_columns datos) <-> exists d, In d datos /\ In c (keys d).
Proof.
  unfold frame_columns.
  assert (G : forall cols, In c (fold_left add_keys datos cols) <->
                In c cols \/ exists d, In d datos /\ In c (keys d)).
  { induction datos as [|d r IH]; intros cols; simpl.
    - split; [now left | intros [H|(d & [] & _)]; exact H].
    - rewrite IH, add_keys_In. split.
      + intros [[H|H]|(d' & H1 & H2)]; eauto.
      + intros [H|(d' & [<-|H1] & H2)]; eauto. }
  rewrite G. simpl. split; [intros [[]|H]; exact H | now right].
Qed.

Lemma frame_tab (datos : list dict) : frame datos = tab (frame_columns datos) datos.
Proof. reflexivity. Qed.

Lemma renombrar_col0 : renombrar "col0" = "timestamp"%string.
Proof. reflexivity. Qed.
Lemma renombrar_fecha : renombrar "fecha_legible" = "fecha_legible"%string.
Proof. reflexivity. Qed.
Lemma renombrar_col2 : renombrar "col2" = "cola"%string.
Proof. reflexivity. Qed.
Lemma renombrar_col4 : renombrar "col4" = "evento"%string.
Proof. reflexivity. Qed.
Lemma renombrar_col6 : renombrar "col6" = "numero_telefono"%string.
Proof. reflexivity. Qed.

Lemma rename_tab (fs : list string) (datos : list dict) :
  rename rename_map (tab fs datos)
  = {| columns := List.map renombrar fs; rows := rows (tab fs datos) |}.
Proof. reflexivity. Qed.

Lemma filter_necesarias (p : string -> bool) :
  List.filter p necesarias
  = pick (p "col0") "col0" ++ pick (p "fecha_legible") "fecha_legible"
    ++ pick (p "col2") "col2" ++ pick (p "col4") "col4" ++ pick (p "col6") "col6".
Proof.
  unfold necesarias. simpl.
  destruct (p "col0"), (p "fecha_legible"), (p "col2"), (p "col4"), (p "col6");
    reflexivity.
Qed.

(** ** Ingestion *)

Section IngestionProps.
Context {U : Unicode} (w : World).

(** The translation step on any choice of kept columns. *)
Lemma traducir_pick (b0 b1 b2 b3 b4 : bool) (datos : list dict) :
  let fs := pick b0 "col0" ++ pick b1 "fecha_legible" ++ pick b2 "col2"
            ++ pick b3 "col4" ++ pick b4 "col6" in
  traducir w (rename rename_map (tab fs datos))
  = {| columns := List.map renombrar fs;
       rows := List.map (fila_final w fs) datos |}.
Proof.
  intros fs. rewrite rename_tab. unfold traducir, fila_final, traducida, map_column.
  destruct (eventos_json w) as [t|e].
  - subst fs. destruct b0, b1, b2, b3, b4; cbn [pick app List.map columns rows tab];
      rewrite ?renombrar_col0, ?renombrar_fecha, ?renombrar_col2, ?renombrar_col4,
        ?renombrar_col6;
      cbn; f_equal; rewrite ?List.map_map; apply map_ext; intros d; reflexivity.
  - reflexivity.
Qed.

(** The reordering block succeeds and keeps the set of labels. *)
Lemma reordenar_tab (cols : list string) (datos : list dict) :
  exists cols', reordenar (tab cols datos) = Ok (tab cols' datos)
    /\ forall c, In c cols' <-> In c cols.
Proof.
  unfold reordenar. cbn [columns tab].
  destruct (mem "col0" cols) eqn:E0; [|exists cols; now split].
  destruct (mem "fecha_legible" cols) eqn:E1; [|exists cols; now split].
  apply mem_In in E0, E1. cbn [andb].
  destruct (list_remove_ok "fecha_legible" cols E1) as (cols1 & -> & Hsub & Hsup).
  assert (H0 : In "col0"%string cols1) by (apply Hsup; [discriminate | assumption]).
  cbn [mbind result_bind].
  destruct (list_index_ok "col0" cols1 H0) as (i & ->).
  cbn [mbind result_bind fmap result_fmap].
  exists (list_insert_at (i + 1) "fecha_legible" cols1).
  assert (Hc : forall c, In c (list_insert_at (i + 1) "fecha_legible" cols1) <-> In c cols).
  { intros c. rewrite In_insert_at. split.
    - intros [->|H]; [assumption | now apply Hsub].
    - intros H. destruct (string_dec c "fecha_legible") as [->|Hne]; [now left|].
      right. now apply Hsup. }
  split; [|exact Hc].
  apply select_tab. intros c. apply Hc.
Qed.

(** Whatever the file holds, the steps after reading it succeed, and
    their result is [esperado]. *)
Lemma dataframe_de_esperado (contenido : str) :
  dataframe_de w contenido = Ok (esperado w (datos_de w contenido)).
Proof.
  unfold dataframe_de. rewrite frame_tab.
  destruct (reordenar_tab (frame_columns (datos_de w contenido)) (datos_de w contenido))
    as (cols' & -> & Hc).
  cbn [mbind result_bind columns tab].
  assert (E : List.filter (fun c => mem c cols') necesarias = finales (datos_de w contenido)).
  { unfold finales. apply List.filter_ext. intros c. now apply mem_ext. }
  rewrite E, select_tab.
  - cbn [mbind result_bind]. f_equal. unfold esperado, finales.
    rewrite filter_necesarias. apply traducir_pick.
  - intros c Hin. unfold finales in Hin. apply List.filter_In in Hin as [_ Hin].
    apply mem_In in Hin. now apply Hc.
Qed.

Lemma split_cons (sep : N) (s : str) : exists h t, split sep s = h :: t.
Proof.
  induction s as [|c r IH]; simpl; [eauto|].
  destruct (c =? sep); [eauto|].
  destruct IH as (h & t & ->). eauto.
Qed.

Lemma getitem_primer_campo (linea : str) :
  getitem (split pipe (strip linea)) 0 = Ok (primer_campo linea).
Proof.
  unfold primer_campo.
  destruct (split_cons pipe (strip linea)) as (h & t & ->). reflexivity.
Qed.

Lemma col_inj (i j : nat) : col i = col j -> i = j.
Proof.
  unfold col. intros H. apply (inj pretty).
  simpl in H. now injection H.
Qed.

Lemma col_fecha (i : nat) : col i <> "fecha_legible"%string.
Proof. unfold col. simpl. discriminate. Qed.

Lemma llenar_get_other (k : string) (partes : list str) (i : nat) (fila : dict) :
  (forall j, (j < length partes)%nat -> k <> col (i + j)) ->
  dict_get k (llenar i partes fila) = dict_get k fila.
Proof.
  revert i fila. induction partes as [|valor r IH]; intros i fila H; simpl.
  - reflexivity.
  - rewrite IH.
    + rewrite dict_get_set.
      destruct (String.eqb_spec k (col i)) as [->|Hne]; [|reflexivity].
      exfalso. apply (H 0%nat); [simpl; lia | now rewrite Nat.add_0_r].
    + intros j Hj. replace (S i + j)%nat with (i + S j)%nat by lia.
      apply H. simpl. lia.
Qed.

Lemma llenar_get_col (partes : list str) (i j : nat) (fila : dict) (valor : str) :
  nth_error partes j = Some valor ->
  dict_get (col (i + j)) (llenar i partes fila)
  = Some (limpiar_texto (VStr (strip valor))).
Proof.
  revert i j fila. induction partes as [|x r IH]; intros i j fila H.
  - destruct j; discriminate.
  - destruct j as [|j]; simpl in *.
    + injection H as ->. rewrite llenar_get_other.
      * rewrite dict_get_set, Nat.add_0_r, String.eqb_refl. reflexivity.
      * intros j Hj E. apply col_inj in E. lia.
    + replace (i + S j)%nat with (S i + j)%nat by lia. now apply IH.
Qed.

Lemma llenar_keys (c : string) (partes : list str) (i : nat) (fila : dict) :
  In c (keys (llenar i partes fila)) <->
  In c (keys fila) \/ exists j, (j < length partes)%nat /\ c = col (i + j).
Proof.
  revert i fila. induction partes as [|x r IH]; intros i fila; simpl.
  - split; [now left | intros [H|(j & Hj & _)]; [exact H | lia]].
  - rewrite IH, keys_set. split.
    + intros [[->|H]|(j & Hj & ->)].
      * right. exists 0%nat. split; [lia | now rewrite Nat.add_0_r].
      * now left.
      * right. exists (S j). split; [lia | f_equal; lia].
    + intros [H|(j & Hj & ->)]; [left; now right|].
      destruct j as [|j].
      * left. left. now rewrite Nat.add_0_r.
      * right. exists j. split; [lia | f_equal; lia].
Qed.

(** The keys of the dictionary of a line: one per field, and the date. *)
Lemma fila_keys (linea : str) (c : string) :
  In c (keys (fila_de_linea w linea)) <->
  c = "fecha_legible"%string
  \/ exists j, (j < length (split pipe (strip linea)))%nat /\ c = col j.
Proof.
  unfold fila_de_linea. rewrite keys_set, llenar_keys. simpl. intuition.
Qed.

(** What a line stores under [col j]. *)
Lemma fila_col (linea : str) (j : nat) (campo : str) :
  nth_error (split pipe (strip linea)) j = Some campo ->
  dict_get (col j) (fila_de_linea w linea)
  = Some (VStr (normalize NFKC (strip campo))).
Proof.
  intros H. unfold fila_de_linea. rewrite dict_get_set.
  destruct (String.eqb_spec (col j) "fecha_legible") as [E|_];
    [now apply col_fecha in E|].
  exact (llenar_get_col _ 0 j [] campo H).
Qed.

(** What a line stores under fecha_legible. *)
Lemma fila_fecha (linea : str) :
  dict_get "fecha_legible" (fila_de_linea w linea)
  = Some match (ts ← py_int (primer_campo linea); fromtimestamp (localtime_ok w) (utcoffset w) ts) with
         | Ok d => VDatetime d
         | Raise _ => VNone
         end.
Proof.
  unfold fila_de_linea. rewrite dict_get_set, String.eqb_refl.
  now rewrite getitem_primer_campo.
Qed.

Lemma fila_has_col0 (linea : str) : In "col0"%string (keys (fila_de_linea w linea)).
Proof.
  apply fila_keys. right. exists 0%nat. split; [|reflexivity].
  destruct (split_cons pipe (strip linea)) as (h & t & ->). simpl. lia.
Qed.

Lemma fila_has_fecha (linea : str) :
  In "fecha_legible"%string (keys (fila_de_linea w linea)).
Proof. apply fila_keys. now left. Qed.

Lemma finales_In (datos : list dict) (c : string) :
  In c (finales datos) <->
  In c necesarias /\ exists d, In d datos /\ In c (keys d).
Proof.
  unfold finales. now rewrite List.filter_In, mem_In, frame_columns_In.
Qed.

Lemma finales_existsb (datos : list dict) :
  finales datos
  = List.filter (fun c => existsb (fun d => mem c (keys d)) datos) necesarias.
Proof.
  unfold finales. apply List.filter_ext. intros c. apply eq_true_iff_eq.
  rewrite mem_In, frame_columns_In, existsb_exists.
  split; intros (d & H1 & H2); exists d; (split; [exact H1 | now apply mem_In]).
Qed.

Lemma traducida_other (c : string) (x : cell) :
  c <> "col4"%string -> traducida w c x = x.
Proof.
  intros H. unfold traducida. destruct (eventos_json w); [|reflexivity].
  destruct (String.eqb_spec c "col4"); [contradiction | reflexivity].
Qed.

(** The cell of an output row under the new label of a kept column. *)
Lemma celda_pick (b0 b1 b2 b3 b4 : bool) (d : dict) (c : string) :
  let fs := pick b0 "col0" ++ pick b1 "fecha_legible" ++ pick b2 "col2"
            ++ pick b3 "col4" ++ pick b4 "col6" in
  In c fs ->
  cell_at (List.map renombrar fs) (fila_final w fs d) (renombrar c)
  = traducida w c (dict_get c d).
Proof.
  intros fs Hin. subst fs.
  destruct b0, b1, b2, b3, b4; cbn [pick app] in *; simpl in Hin;
    repeat (destruct Hin as [<-|Hin]; [reflexivity|]); destruct Hin.
Qed.

Lemma celda_final (datos : list dict) (d : dict) (c : string) :
  In c (finales datos) ->
  cell_at (List.map renombrar (finales datos)) (fila_final w (finales datos) d)
    (renombrar c)
  = traducida w c (dict_get c d).
Proof.
  unfold finales. rewrite filter_necesarias. apply celda_pick.
Qed.

(** Row [i] of the output is made from line [i]. *)
Lemma fila_de_salida (contenido : str) (i : nat) (linea : str) :
  nth_error (readlines contenido) i = Some linea ->
  nth_error (rows (esperado w (datos_de w contenido))) i
  = Some (fila_final w (finales (datos_de w contenido)) (fila_de_linea w linea)).
Proof.
  intros H. unfold esperado, datos_de. cbn [rows].
  now rewrite !nth_error_map, H.
Qed.

Lemma linea_en_datos (contenido : str) (i : nat) (linea : str) :
  nth_error (readlines contenido) i = Some linea ->
  In (fila_de_linea w linea) (datos_de w contenido).
Proof.
  intros H. unfold datos_de. apply in_map. eapply nth_error_In, H.
Qed.

Lemma fecha_en_finales (contenido : str) (i : nat) (linea : str) :
  nth_error (readlines contenido) i = Some linea ->
  In "fecha_legible"%string (finales (datos_de w contenido)).
Proof.
  intros H. apply finales_In. split; [unfold necesarias; simpl; tauto|].
  exists (fila_de_linea w linea). split; [eapply linea_en_datos, H|].
  apply fila_has_fecha.
Qed.

Lemma col0_en_finales (contenido : str) (i : nat) (linea : str) :
  nth_error (readlines contenido) i = Some linea ->
  In "col0"%string (finales (datos_de w contenido)).
Proof.
  intros H. apply finales_In. split; [unfold necesarias; simpl; tauto|].
  exists (fila_de_linea w linea). split; [eapply linea_en_datos, H|].
  apply fila_has_col0.
Qed.

(** Without the column col4 there is no cell under evento. *)
Lemma sin_evento_pick (b0 b1 b2 b4 : bool) (d : dict) :
  let fs := pick b0 "col0" ++ pick b1 "fecha_legible" ++ pick b2 "col2"
            ++ pick false "col4" ++ pick b4 "col6" in
  cell_at (List.map renombrar fs) (fila_final w fs d) "evento" = None.
Proof. destruct b0, b1, b2, b4; reflexivity. Qed.

(** A line with fewer than five fields has no event code, and no cell
    under evento. *)
Lemma celda_sin_evento (contenido : str) (linea : str) :
  nth_error (split pipe (strip linea)) 4 = None ->
  cell_at (columns (esperado w (datos_de w contenido)))
    (fila_final w (finales (datos_de w contenido)) (fila_de_linea w linea))
    "evento"
  = None.
Proof.
  intros Hc. cbn [columns esperado].
  assert (Hd : dict_get "col4" (fila_de_linea w linea) = None).
  { destruct (dict_get "col4" (fila_de_linea w linea)) eqn:E; [|reflexivity].
    exfalso.
    assert (Hk : In "col4"%string (keys (fila_de_linea w linea)))
      by (apply dict_get_keys; congruence).
    apply fila_keys in Hk as [Hk|(j & Hj & Hk)]; [discriminate|].
    change "col4"%string with (col 4) in Hk. apply col_inj in Hk. subst j.
    apply nth_error_None in Hc. lia. }
  destruct (in_dec string_dec "col4"%string (finales (datos_de w contenido)))
    as [Hin|Hn].
  - pose proof (celda_final (datos_de w contenido) (fila_de_linea w linea)
                  "col4" Hin) as E.
    rewrite renombrar_col4, Hd in E. rewrite E.
    unfold traducida. now destruct (eventos_json w).
  - unfold finales in *. rewrite filter_necesarias in *.
    destruct (mem "col4" (frame_columns (datos_de w contenido))) eqn:E4.
    + exfalso. apply Hn. rewrite !in_app_iff. simpl. tauto.
    + apply sin_evento_pick.
Qed.

(** The date cell of output row [i]. *)
Lemma celda_fecha (contenido : str) (i : nat) (linea : str) :
  nth_error (readlines contenido) i = Some linea ->
  cell_at (columns (esperado w (datos_de w contenido)))
    (fila_final w (finales (datos_de w contenido)) (fila_de_linea w linea))
    "fecha_legible"
  = Some match (ts ← py_int (primer_campo linea); fromtimestamp (localtime_ok w) (utcoffset w) ts) with
         | Ok d => VDatetime d
         | Raise _ => VNone
         end.
Proof.
  intros H.
  pose proof (celda_final (datos_de w contenido) (fila_de_linea w linea)
                "fecha_legible" (fecha_en_finales _ _ _ H)) as E.
  rewrite renombrar_fecha in E. cbn [columns esperado].
  rewrite E, traducida_other by discriminate. apply fila_fecha.
Qed.

Lemma py_int_empty (s : str) :
  strip_by int_space s = [] -> exists e, py_int s = Raise e.
Proof. intros H. unfold py_int. rewrite H. eauto. Qed.


(** C2.  The steps after reading the file never raise, so
    [generar_dataframe] returns a frame for every file that can be read;
    and when the first field of line [i] is not an integer - in
    particular when it is empty or the line is blank - the fecha_legible
    cell of row [i] is None. *)
Theorem fecha_vacia_y_total (contenido : str) :
  exists df,
    dataframe_de w contenido = Ok df
    /\ (forall path, files w !! path = Some contenido ->
          generar_dataframe w path = Ok df)
    /\ (forall i linea,
          nth_error (readlines contenido) i = Some linea ->
          (exists e, py_int (primer_campo linea) = Raise e) ->
          exists row, nth_error (rows df) i = Some row
            /\ cell_at (columns df) row "fecha_legible" = Some VNone)
    /\ (forall linea,
          primer_campo linea = [] ->
          exists e, py_int (primer_campo linea) = Raise e).
Proof.
  exists (esperado w (datos_de w contenido)).
  split; [apply dataframe_de_esperado|]. split; [|split].
  - intros path Hp. unfold generar_dataframe, open_read. rewrite Hp.
    apply dataframe_de_esperado.
  - intros i linea Hl [e He]. eexists. split; [exact (fila_de_salida contenido i linea Hl)|].
    now rewrite (celda_fecha contenido i linea Hl), He.
  - intros linea ->. now apply py_int_empty.
Qed.

(** C3, as the code has it.  There is one output row per input line,
    blank lines included: a line that is empty once trimmed still gives a
    row, whose timestamp is the normalized empty string and whose
    fecha_legible is None.  An empty file gives the frame with no rows
    and no columns. *)
Theorem una_fila_por_linea (contenido : str) :
  exists df,
    dataframe_de w contenido = Ok df
    /\ length (rows df) = length (readlines contenido)
    /\ (forall i linea,
          nth_error (readlines contenido) i = Some linea ->
          strip linea = [] ->
          exists row, nth_error (rows df) i = Some row
            /\ cell_at (columns df) row "timestamp"
               = Some (VStr (normalize NFKC []))
            /\ (UnicodeOk U -> cell_at (columns df) row "timestamp" = Some (VStr []))
            /\ cell_at (columns df) row "fecha_legible" = Some VNone)
    /\ (contenido = [] -> df = {| columns := []; rows := [] |}).
Proof.
  exists (esperado w (datos_de w contenido)).
  split; [apply dataframe_de_esperado|]. split; [|split].
  - unfold esperado, datos_de. cbn [rows]. now rewrite !length_map.
  - intros i linea Hl Hs. eexists. split; [exact (fila_de_salida contenido i linea Hl)|].
    assert (Ht : cell_at (columns (esperado w (datos_de w contenido)))
                   (fila_final w (finales (datos_de w contenido)) (fila_de_linea w linea))
                   "timestamp"
                 = Some (VStr (normalize NFKC []))).
    { pose proof (celda_final (datos_de w contenido) (fila_de_linea w linea)
                    "col0" (col0_en_finales contenido i linea Hl)) as E.
      rewrite renombrar_col0 in E. cbn [columns esperado].
      rewrite E, traducida_other by discriminate.
      change "col0"%string with (col 0).
      rewrite (fila_col linea 0 []); [reflexivity | now rewrite Hs]. }
    split; [exact Ht|]. split.
    + intros HU. now rewrite Ht, (normalize_nil U HU).
    + rewrite (celda_fecha contenido i linea Hl).
      unfold primer_campo. rewrite Hs. reflexivity.
  - intros ->. reflexivity.
Qed.

(** C4, as the code has it.  The value a line stores under [col i] is
    field [i] stripped of surrounding whitespace and normalized to the
    compatibility composition form NFKC. *)
Theorem columna_normalizada (contenido : str) (n i : nat) (linea campo : str) :
  nth_error (readlines contenido) n = Some linea ->
  nth_error (split pipe (strip linea)) i = Some campo ->
  exists fila,
    nth_error (datos_de w contenido) n = Some fila
    /\ dict_get (col i) fila = Some (VStr (normalize NFKC (strip campo))).
Proof.
  intros Hl Hc. exists (fila_de_linea w linea). split.
  - unfold datos_de. now rewrite nth_error_map, Hl.
  - now apply fila_col.
Qed.

(** C5.  The labels of the output are the new names of those among col0,
    fecha_legible, col2, col4, col6 that some line has, in that order;
    and row [i] comes from line [i]: it has one cell per label, the cell
    under the new name of a kept column being what that line stores in
    the column, after the translation step. *)
Theorem columnas_y_orden (contenido : str) :
  exists df,
    dataframe_de w contenido = Ok df
    /\ columns df
       = List.map renombrar
           (List.filter
              (fun c => existsb (fun d => mem c (keys d)) (datos_de w contenido))
              necesarias)
    /\ List.map renombrar necesarias
       = ["timestamp"; "fecha_legible"; "cola"; "evento"; "numero_telefono"]%string
    /\ length (rows df) = length (readlines contenido)
    /\ (forall i linea,
          nth_error (readlines contenido) i = Some linea ->
          exists row,
            nth_error (rows df) i = Some row
            /\ length row = length (columns df)
            /\ forall c, In c necesarias ->
                 In c (keys (fila_de_linea w linea)) ->
                 cell_at (columns df) row (renombrar c)
                 = traducida w c (dict_get c (fila_de_linea w linea))).
Proof.
  exists (esperado w (datos_de w contenido)).
  split; [apply dataframe_de_esperado|]. split; [|split; [|split]].
  - cbn [columns esperado]. now rewrite finales_existsb.
  - reflexivity.
  - unfold esperado, datos_de. cbn [rows]. now rewrite !length_map.
  - intros i linea Hl. eexists. split; [exact (fila_de_salida contenido i linea Hl)|]. split.
    + cbn [columns esperado]. unfold fila_final. now rewrite !length_map.
    + intros c Hn Hk. cbn [columns esperado]. apply celda_final.
      apply finales_In. split; [exact Hn|].
      exists (fila_de_linea w linea). split; [eapply linea_en_datos, Hl | exact Hk].
Qed.

(** C6.  The evento cell of row [i] is the label the table gives for the
    code of line [i] when the code is a key of the table, and the code
    itself otherwise; a line without a fifth field has no cell under
    evento.  When eventos.json cannot be loaded nothing is raised and the
    frame is the one before the translation step: every row keeps its
    code. *)
Theorem traduccion_de_eventos (contenido : str) :
  exists df,
    dataframe_de w contenido = Ok df
    /\ (forall i linea campo,
          nth_error (readlines contenido) i = Some linea ->
          nth_error (split pipe (strip linea)) 4 = Some campo ->
          let codigo := normalize NFKC (strip campo) in
          exists row,
            nth_error (rows df) i = Some row
            /\ cell_at (columns df) row "evento"
               = Some (VStr match eventos_json w with
                            | Ok t => default codigo (t !! codigo)
                            | Raise _ => codigo
                            end))
    /\ (forall i linea,
          nth_error (readlines contenido) i = Some linea ->
          nth_error (split pipe (strip linea)) 4 = None ->
          exists row,
            nth_error (rows df) i = Some row
            /\ cell_at (columns df) row "evento" = None)
    /\ ((exists e, eventos_json w = Raise e) ->
          df = rename rename_map
                 (tab (finales (datos_de w contenido)) (datos_de w contenido))).
Proof.
  exists (esperado w (datos_de w contenido)).
  split; [apply dataframe_de_esperado|]. split; [|split].
  2: { intros i linea Hl Hc. eexists.
       split; [exact (fila_de_salida contenido i linea Hl)|].
       now apply celda_sin_evento. }
  - intros i linea campo Hl Hc codigo. eexists.
    split; [exact (fila_de_salida contenido i linea Hl)|].
    assert (Hin : In "col4"%string (finales (datos_de w contenido))).
    { apply finales_In. split; [unfold necesarias; simpl; tauto|].
      exists (fila_de_linea w linea). split; [eapply linea_en_datos, Hl|].
      apply fila_keys. right. exists 4%nat. split; [|reflexivity].
      apply nth_error_Some. now rewrite Hc. }
    pose proof (celda_final (datos_de w contenido) (fila_de_linea w linea)
                  "col4" Hin) as E.
    rewrite renombrar_col4 in E. cbn [columns esperado]. rewrite E.
    change "col4"%string with (col 4) at 2.
    rewrite (fila_col linea 4 campo Hc). fold codigo.
    unfold traducida. destruct (eventos_json w) as [t|e]; [|reflexivity].
    cbn. now destruct (t !! codigo).
  - intros [e He]. rewrite rename_tab. unfold esperado. f_equal.
    cbn [rows tab]. apply map_ext. intros d. unfold fila_final.
    apply map_ext. intros c. unfold traducida. now rewrite He.
Qed.

End IngestionProps.

(** *** The scenarios of the specification *)

Example escenario_login :
  @generar_dataframe basic_unicode escenario_mundo "uploads/queue_log"
  = Ok {| columns := ["timestamp"; "fecha_legible"; "cola"; "evento";
                      "numero_telefono"]%string;
          rows := [[Some (VStr (u "1700000000"));
                    Some (VDatetime {| year := 2023; month := 11; day := 14;
                                       hour := 22; minute := 13; second := 20 |});
                    Some (VStr (u "queueA"));
                    Some (VStr (u "Login"));
                    Some (VStr (u "5551234"))]] |}.
Proof. vm_compute. reflexivity. Qed.

Example escenario_sin_traduccion :
  @dataframe_de basic_unicode escenario_mundo (u "abc|x|queueB|y|EVT9|z|5559999")
  = Ok {| columns := ["timestamp"; "fecha_legible"; "cola"; "evento";
                      "numero_telefono"]%string;
          rows := [[Some (VStr (u "abc")); Some VNone;
                    Some (VStr (u "queueB"));
                    Some (VStr (u "EVT9"));
                    Some (VStr (u "5559999"))]] |}.
Proof. vm_compute. reflexivity. Qed.



(** C3 as stated fails on a blank line: it gives a row. *)
Lemma linea_en_blanco_da_fila :
  List.filter no_vacia (readlines [LF]) = []
  /\ @dataframe_de basic_unicode mundo_sin_eventos [LF]
     = Ok {| columns := ["timestamp"; "fecha_legible"]%string;
             rows := [[Some (VStr []); Some VNone]] |}
  /\ length [[Some (VStr []); Some VNone]]
     <> length (List.filter no_vacia (readlines [LF])).
Proof.
  split; [reflexivity|]. split; [vm_compute; reflexivity|].
  vm_compute. discriminate.
Qed.

Lemma columna_normalizada_witness :
  exists fila,
    nth_error (@datos_de basic_unicode mundo_sin_eventos (u " a | b ")) 0 = Some fila
    /\ dict_get (col 1) fila = Some (VStr (u "b")).
Proof.
  exact (@columna_normalizada basic_unicode mundo_sin_eventos (u " a | b ") 0 1
           (u " a | b ") (u " b") eq_refl eq_refl).
Defined.

(** C4 as stated fails on the ligature U+FB01: the stored value is its
    compatibility form "fi", and the canonical form keeps the ligature. *)
Lemma ligadura_no_es_nfc :
  nth_error (readlines [0xfb01]) 0 = Some [0xfb01]
  /\ nth_error (split pipe (strip [0xfb01])) 0 = Some [0xfb01]
  /\ dict_get (col 0) (@fila_de_linea basic_unicode mundo_sin_eventos [0xfb01])
     = Some (VStr (u "fi"))
  /\ @normalize basic_unicode NFC (strip [0xfb01]) = [0xfb01]
  /\ dict_get (col 0) (@fila_de_linea basic_unicode mundo_sin_eventos [0xfb01])
     <> Some (VStr (@normalize basic_unicode NFC (strip [0xfb01]))).
Proof.
  split; [reflexivity|]. split; [reflexivity|].
  split; [vm_compute; reflexivity|]. split; [reflexivity|].
  vm_compute. discriminate.
Qed.

(** ** Export *)

Lemma utf8_char_escalar (c : N) :
  es_escalar c -> exists b, utf8_char c = Ok b.
Proof.
  unfold es_escalar, utf8_char. intros H.
  destruct (N.ltb_spec c 0x80) as [A1|A1]; [eauto|].
  destruct (N.ltb_spec c 0x800) as [A2|A2]; [eauto|].
  destruct (N.leb_spec 0xd800 c) as [A3|A3];
    destruct (N.leb_spec c 0xdfff) as [A4|A4]; cbn [andb]; try lia;
    destruct (N.ltb_spec c 0x10000) as [A5|A5]; eauto;
    destruct (N.ltb_spec c 0x110000) as [A6|A6]; eauto; lia.
Qed.

Lemma utf8_escalar (s : str) :
  Forall es_escalar s -> exists b, utf8 s = Ok b.
Proof.
  induction 1 as [|c r Hc Hr [bs IH]]; simpl; [eauto|].
  destruct (utf8_char_escalar c Hc) as [b ->]. rewrite IH.
  cbn [mbind result_bind]. eauto.
Qed.

Section ExportProps.
Context (w : World).

Lemma generar_reporte_no_excel (df : DataFrame) (formato : str) :
  formato <> u "excel" ->
  generar_reporte_memoria w df formato = app BOM <$> utf8 (to_csv w df).
Proof.
  intros Hf. unfold generar_reporte_memoria.
  now rewrite bool_decide_eq_false_2 by exact Hf.
Qed.

Lemma to_csv_textos (df : DataFrame) :
  to_csv w df = flat_map writerow (textos w df).
Proof.
  unfold to_csv, textos. cbn [flat_map]. f_equal.
  generalize (render_row w (rows df)). intros g.
  induction (rows df) as [|r rs IH]; simpl; [reflexivity | now rewrite IH].
Qed.


End ExportProps.


Example reporte_csv_escenario :
  exists b,
    generar_reporte_memoria escenario_mundo escenario_df (u "csv")
    = Ok (0xef :: 0xbb :: 0xbf :: b)
    /\ b = u "timestamp,fecha_legible,cola,evento,numero_telefono" ++ [LF]
           ++ u "1700000000,2023-11-14 22:13:20,queueA,Login,5551234" ++ [LF].
Proof. eexists. split; vm_compute; reflexivity. Qed.

(** ** The download endpoint *)

Section EndpointProps.
Context {U : Unicode} (w : World).

(** C9.  When the session holds no uploaded file, the endpoint answers
    with the message and status 400, whatever the format: nothing is
    raised and no attachment is produced. *)
Theorem generar_sin_archivo (session : gmap string string) (formato : str) :
  session !! "last_file"%string = None ->
  generar w session formato = Ok (Text aviso_sin_archivo 400)
  /\ (forall e, generar w session formato <> Raise e)
  /\ (forall content name mime,
        generar w session formato <> Ok (Attachment content name mime)).
Proof.
  intros H.
  assert (E : generar w session formato = Ok (Text aviso_sin_archivo 400)).
  { unfold generar. now rewrite H. }
  rewrite E. split; [reflexivity|]. split; intros; discriminate.
Qed.

(** The same answer when the remembered file no longer exists. *)
Lemma generar_archivo_perdido (session : gmap string string) (formato : str)
    (filepath : string) :
  session !! "last_file"%string = Some filepath ->
  files w !! filepath = None ->
  generar w session formato = Ok (Text aviso_sin_archivo 400).
Proof.
  intros H Hf. unfold generar. rewrite H, Hf.
  rewrite bool_decide_eq_false_2 by (intros [x Hx]; discriminate).
  now rewrite orb_true_r.
Qed.

End EndpointProps.

Lemma generar_sin_archivo_witness :
  (∅ : gmap string string) !! "last_file"%string = None
  /\ @generar basic_unicode escenario_mundo ∅ (u "csv")
     = Ok (Text aviso_sin_archivo 400).
Proof.
  split; [reflexivity|].
  exact (proj1 (@generar_sin_archivo basic_unicode escenario_mundo ∅ (u "csv")
                  eq_refl)).
Defined.

(** ** The csv writer, on the cases the interpreter was observed on *)

Example writerow_empty : writerow [] = [LF].
Proof. reflexivity. Qed.

Example writerow_one_empty : writerow [[]] = [quote; quote; LF].
Proof. reflexivity. Qed.

Example writerow_trailing_empty : writerow [u "a"; []; []] = u "a,," ++ [LF].
Proof. reflexivity. Qed.

Example writerow_comma : writerow [u "a,b"] = [quote] ++ u "a,b" ++ [quote; LF].
Proof. reflexivity. Qed.

Example writerow_quote :
  writerow [u " a "; [quote; 0x71; quote]]
  = u " a ," ++ [quote; quote; quote; 0x71; quote; quote; quote; LF].
Proof. reflexivity. Qed.

Example writerow_line_end :
  writerow [[0x61; LF; 0x62]] = [quote; 0x61; LF; 0x62; quote; LF].
Proof. reflexivity. Qed.

Example writerow_carriage_return :
  writerow [[0x61; 0x0d; 0x62]; u "c"] = [0x61; 0x0d; 0x62] ++ u ",c" ++ [LF].
Proof. reflexivity. Qed.

(** ** Reading an export back *)

Lemma special_false (c : N) :
  special c = false ->
  (c =? LF) = false /\ (c =? comma) = false /\ (c =? quote) = false.
Proof.
  unfold special. intros H.
  apply orb_false_elim in H as [H H3]. apply orb_false_elim in H as [H1 H2].
  auto.
Qed.

(** A field without quotes is read as it stands. *)
Lemma leer_plain (f acc : str) (fila : list str) (rest : str) :
  existsb special f = false ->
  leer EnCampo acc fila (f ++ rest) = leer EnCampo (rev f ++ acc) fila rest.
Proof.
  revert acc. induction f as [|c f IH]; intros acc H; [reflexivity|].
  simpl in H. apply orb_false_elim in H as [Hc Hf].
  destruct (special_false c Hc) as (H1 & H2 & _).
  cbn [app leer]. rewrite H1, H2, (IH (c :: acc) Hf).
  simpl. now rewrite <- app_assoc.
Qed.

(** The inside of a quoted field, up to the closing quote. *)
Lemma leer_quoted (f acc : str) (fila : list str) (rest : str) :
  leer Citado acc fila
    (flat_map (fun c => if c =? quote then [quote; quote] else [c]) f
     ++ quote :: rest)
  = leer CitaEnCitado (rev f ++ acc) fila rest.
Proof.
  revert acc. induction f as [|c f IH]; intros acc; [reflexivity|].
  cbn [flat_map]. rewrite <- app_assoc.
  destruct (N.eqb_spec c quote) as [->|Hne].
  - cbn [app leer]. change (quote =? quote) with true. cbv iota.
    rewrite (IH (quote :: acc)). simpl. now rewrite <- app_assoc.
  - cbn [app leer]. rewrite (proj2 (N.eqb_neq c quote) Hne), (IH (c :: acc)).
    simpl. now rewrite <- app_assoc.
Qed.

Lemma csv_field_nil (f : str) : csv_field f = [] -> f = [].
Proof.
  unfold csv_field. destruct (existsb special f); [discriminate | trivial].
Qed.

(** One written field, read from the start of a field up to the
    terminator [t] that follows it. *)
Lemma leer_field (st : estado) (f : str) (fila : list str) (t : N) (rest : str) :
  st = Inicio \/ st = InicioCampo ->
  t = comma \/ t = LF ->
  f <> [] \/ existsb special f = true ->
  leer st [] fila (csv_field f ++ t :: rest)
  = leer (if existsb special f then CitaEnCitado else EnCampo) (rev f) fila
      (t :: rest).
Proof.
  intros Hst Ht Hf. unfold csv_field.
  destruct (existsb special f) eqn:E.
  - cbn [app]. rewrite <- app_assoc. cbn [app].
    assert (G : leer st [] fila
                  (quote :: flat_map (fun c => if c =? quote then [quote; quote] else [c]) f
                   ++ quote :: t :: rest)
                = leer Citado [] fila
                    (flat_map (fun c => if c =? quote then [quote; quote] else [c]) f
                     ++ quote :: t :: rest)).
    { destruct Hst as [-> | ->]; reflexivity. }
    rewrite G, leer_quoted. now rewrite app_nil_r.
  - destruct f as [|c f]; [destruct Hf as [Hf|Hf]; congruence|].
    simpl in E. apply orb_false_elim in E as [Hc E].
    destruct (special_false c Hc) as (H1 & H2 & H3).
    assert (G : leer st [] fila ((c :: f) ++ t :: rest)
                = leer EnCampo [c] fila (f ++ t :: rest)).
    { destruct Hst as [-> | ->]; cbn [app leer]; now rewrite H1, H2, H3. }
    rewrite G, (leer_plain f [c] fila (t :: rest) E). reflexivity.
Qed.

Lemma leer_field_comma (st : estado) (f : str) (fila : list str) (rest : str) :
  st = Inicio \/ st = InicioCampo ->
  leer st [] fila (csv_field f ++ comma :: rest)
  = leer InicioCampo [] (f :: fila) rest.
Proof.
  intros Hst. destruct (existsb special f) eqn:E.
  - rewrite (leer_field st f fila comma rest Hst (or_introl eq_refl) (or_intror E)), E.
    cbn. now rewrite rev_involutive.
  - destruct f as [|c f].
    + unfold csv_field. simpl. destruct Hst as [-> | ->]; reflexivity.
    + rewrite (leer_field st (c :: f) fila comma rest Hst (or_introl eq_refl))
        by (left; discriminate).
      rewrite E. cbn [leer]. change (comma =? LF) with false.
      change (comma =? comma) with true. cbv iota. now rewrite rev_involutive.
Qed.

Lemma leer_field_lf (st : estado) (f : str) (fila : list str) (rest : str) :
  st = InicioCampo \/ (st = Inicio /\ csv_field f <> []) ->
  leer st [] fila (csv_field f ++ LF :: rest)
  = rev (f :: fila) :: leer Inicio [] [] rest.
Proof.
  intros Hst.
  assert (Hst' : st = Inicio \/ st = InicioCampo) by tauto.
  destruct (existsb special f) eqn:E.
  - rewrite (leer_field st f fila LF rest Hst' (or_intror eq_refl) (or_intror E)), E.
    cbn. now rewrite rev_involutive.
  - destruct f as [|c f].
    + destruct Hst as [-> | [-> Hne]]; [reflexivity|].
      exfalso. apply Hne. reflexivity.
    + rewrite (leer_field st (c :: f) fila LF rest Hst' (or_intror eq_refl))
        by (left; discriminate).
      rewrite E. cbn [leer]. change (LF =? LF) with true. cbv iota.
      now rewrite rev_involutive.
Qed.

(** One written record with at least one field. *)
Lemma leer_record (fields : list str) (st : estado) (fila : list str) (rest : str) :
  fields <> [] ->
  st = InicioCampo \/ (st = Inicio /\ fields <> [[]]) ->
  leer st [] fila (join comma (List.map csv_field fields) ++ LF :: rest)
  = rev (rev fields ++ fila) :: leer Inicio [] [] rest.
Proof.
  revert st fila. induction fields as [|f r IH]; intros st fila Hne Hst;
    [congruence|].
  destruct r as [|f2 r].
  - cbn [List.map join]. rewrite leer_field_lf; [reflexivity|].
    destruct Hst as [->|[-> H]]; [now left | right].
    split; [reflexivity|]. intros E. apply csv_field_nil in E. congruence.
  - change (join comma (List.map csv_field (f :: f2 :: r)))
      with (csv_field f ++ comma :: join comma (List.map csv_field (f2 :: r))).
    rewrite <- app_assoc. cbn [app].
    rewrite leer_field_comma by (destruct Hst as [->|[-> _]]; tauto).
    rewrite (IH InicioCampo (f :: fila)) by (try discriminate; now left).
    do 2 f_equal. change (rev (f :: f2 :: r)) with (rev (f2 :: r) ++ [f]).
    now rewrite <- app_assoc.
Qed.

Lemma leer_writerow (fields : list str) (rest : str) :
  leer Inicio [] [] (writerow fields ++ rest) = fields :: leer Inicio [] [] rest.
Proof.
  destruct fields as [|f r]; [reflexivity|].
  destruct f as [|c f]; [destruct r as [|f2 r]; [reflexivity|]|].
  - unfold writerow. rewrite <- app_assoc. cbn [app].
    rewrite leer_record; [now rewrite app_nil_r, rev_involutive | discriminate|].
    right. split; [reflexivity | discriminate].
  - assert (E : writerow ((c :: f) :: r)
                = join comma (List.map csv_field ((c :: f) :: r)) ++ [LF]).
    { unfold writerow. now destruct r. }
    rewrite E, <- app_assoc. cbn [app].
    rewrite leer_record; [now rewrite app_nil_r, rev_involutive | discriminate|].
    right. split; [reflexivity | discriminate].
Qed.

(** Reading what the writer wrote gives the records back. *)
Lemma leer_csv_writerows (records : list (list str)) :
  leer_csv (flat_map writerow records) = records.
Proof.
  unfold leer_csv. induction records as [|fields r IH]; [reflexivity|].
  cbn [flat_map]. now rewrite leer_writerow, IH.
Qed.

Ltac decide_tests :=
  repeat match goal with
         | |- context [N.ltb ?a ?b] =>
             destruct (N.ltb_spec a b); try (exfalso; div_lia)
         | |- context [N.leb ?a ?b] =>
             destruct (N.leb_spec a b); try (exfalso; div_lia)
         end.

Lemma decode_utf8_cons (b0 : N) (r0 : bytes) :
  decode_utf8 (b0 :: r0)
  = if b0 <? 0x80 then cons b0 <$> decode_utf8 r0
    else if b0 <? 0xc0 then None
    else if b0 <? 0xe0 then
      match r0 with
      | b1 :: r1 =>
          if cont b1
          then cons ((b0 - 0xc0) * 0x40 + (b1 - 0x80)) <$> decode_utf8 r1
          else None
      | _ => None
      end
    else if b0 <? 0xf0 then
      match r0 with
      | b1 :: b2 :: r2 =>
          if cont b1 && cont b2
          then cons ((b0 - 0xe0) * 0x1000 + (b1 - 0x80) * 0x40 + (b2 - 0x80))
                 <$> decode_utf8 r2
          else None
      | _ => None
      end
    else
      match r0 with
      | b1 :: b2 :: b3 :: r3 =>
          if cont b1 && cont b2 && cont b3
          then cons ((b0 - 0xf0) * 0x40000 + (b1 - 0x80) * 0x1000
                     + (b2 - 0x80) * 0x40 + (b3 - 0x80))
                 <$> decode_utf8 r3
          else None
      | _ => None
      end.
Proof. reflexivity. Qed.

(** Decoding undoes the encoding of one code point. *)
Lemma decode_utf8_char (c : N) (b bs : bytes) :
  utf8_char c = Ok b ->
  decode_utf8 (b ++ bs) = cons c <$> decode_utf8 bs.
Proof.
  unfold utf8_char.
  destruct (N.ltb_spec c 0x80) as [A1|A1].
  { intros [= <-]. cbn [app]. rewrite decode_utf8_cons.
    now rewrite (proj2 (N.ltb_lt c 0x80) A1). }
  destruct (N.ltb_spec c 0x800) as [A2|A2].
  { intros [= <-]. cbn [app]. rewrite decode_utf8_cons. unfold cont.
    decide_tests. cbn [andb]. do 2 f_equal. div_lia. }
  destruct (N.leb_spec 0xd800 c) as [A3|A3];
    destruct (N.leb_spec c 0xdfff) as [A4|A4]; cbn [andb]; [discriminate|..].
  all: destruct (N.ltb_spec c 0x10000) as [A5|A5].
  all: try (intros [= <-]; cbn [app]; rewrite decode_utf8_cons; unfold cont;
            decide_tests; cbn [andb]; do 2 f_equal; div_lia).
  all: destruct (N.ltb_spec c 0x110000) as [A6|A6]; [|discriminate].
  all: intros [= <-]; cbn [app]; rewrite decode_utf8_cons; unfold cont;
       decide_tests; cbn [andb]; do 2 f_equal; div_lia.
Qed.

Lemma decode_utf8_utf8 (s : str) (b : bytes) :
  utf8 s = Ok b -> decode_utf8 b = Some s.
Proof.
  revert b. induction s as [|c r IH]; intros b; simpl.
  - now intros [= <-].
  - destruct (utf8_char c) as [bc|e] eqn:Ec; [|discriminate].
    destruct (utf8 r) as [br|e] eqn:Er; [|discriminate].
    cbn [mbind result_bind]. intros [= <-].
    now rewrite (decode_utf8_char c bc br Ec), (IH br eq_refl).
Qed.

Lemma decode_utf8_sig_BOM (b : bytes) :
  decode_utf8_sig (BOM ++ b) = decode_utf8 b.
Proof. reflexivity. Qed.

Section RoundTrip.
Context (w : World).

(** C8, as the code has it.  Reading the bytes of a CSV export back,
    byte-order mark skipped, gives the labels of the frame and, row by
    row, the text each cell was written as: a string cell as it is, a
    missing cell and a None cell as the empty text, a timestamp as the
    text pandas formats it to. *)
Theorem exportar_y_releer (df : DataFrame) (formato : str) (bs : bytes) :
  formato <> u "excel" ->
  generar_reporte_memoria w df formato = Ok bs ->
  releer bs = Some (textos w df)
  /\ textos w df
     = List.map u (columns df)
       :: List.map (imap (fun j c => render w (column j (rows df)) c)) (rows df)
  /\ (forall cs s, render w cs (Some (VStr s)) = s)
  /\ (forall cs d, render w cs (Some (VDatetime d)) = strftime w cs d)
  /\ (forall cs, render w cs (Some VNone) = [] /\ render w cs None = []).
Proof.
  intros Hf Hbs. split; [|repeat split].
  rewrite (generar_reporte_no_excel w df formato Hf) in Hbs.
  destruct (utf8 (to_csv w df)) as [b|e] eqn:E; [|discriminate].
  cbn [fmap result_fmap] in Hbs. injection Hbs as <-. unfold releer.
  change (decode_utf8_sig _) with (decode_utf8_sig (BOM ++ b)).
  rewrite (decode_utf8_sig_BOM b), (decode_utf8_utf8 _ b E).
  cbn [fmap option_fmap option_map]. f_equal.
  rewrite to_csv_textos. apply leer_csv_writerows.
Qed.

End RoundTrip.

Lemma exportar_y_releer_witness :
  releer (BOM ++ u "timestamp,fecha_legible,cola,evento,numero_telefono" ++ [LF]
          ++ u "1700000000,2023-11-14 22:13:20,queueA,Login,5551234" ++ [LF])
  = Some [ [u "timestamp"; u "fecha_legible"; u "cola"; u "evento";
            u "numero_telefono"];
           [u "1700000000"; u "2023-11-14 22:13:20"; u "queueA"; u "Login";
            u "5551234"] ].
Proof.
  assert (H : u "csv" <> u "excel") by (vm_compute; discriminate).
  exact (proj1 (exportar_y_releer escenario_mundo escenario_df (u "csv") _ H eq_refl)).
Defined.

(** C8 as stated fails: a row without the third field and a row whose
    third field is empty are different rows, and they are exported to
    the same bytes, so reading the bytes back cannot give both. *)
Lemma exportacion_confunde_vacios :
  let dfa := {| columns := ["timestamp"; "fecha_legible"; "cola"]%string;
                rows := [[Some (VStr (u "a")); Some VNone; Some (VStr (u "c"))];
                         [Some (VStr (u "x")); Some VNone; None]] |} in
  let dfb := {| columns := ["timestamp"; "fecha_legible"; "cola"]%string;
                rows := [[Some (VStr (u "a")); Some VNone; Some (VStr (u "c"))];
                         [Some (VStr (u "x")); Some VNone; Some (VStr [])]] |} in
  let bs := BOM ++ u "timestamp,fecha_legible,cola" ++ [LF]
            ++ u "a,,c" ++ [LF] ++ u "x,," ++ [LF] in
  @dataframe_de basic_unicode mundo_sin_eventos (u "a|b|c" ++ [LF] ++ u "x") = Ok dfa
  /\ @dataframe_de basic_unicode mundo_sin_eventos (u "a|b|c" ++ [LF] ++ u "x||") = Ok dfb
  /\ generar_reporte_memoria mundo_sin_eventos dfa (u "csv") = Ok bs
  /\ generar_reporte_memoria mundo_sin_eventos dfb (u "csv") = Ok bs
  /\ rows dfa <> rows dfb
  /\ ~ exists reparse : bytes -> DataFrame, reparse bs = dfa /\ reparse bs = dfb.
Proof.
  cbv zeta. repeat split; try (vm_compute; reflexivity).
  - discriminate.
  - intros (reparse & Ha & Hb). rewrite Ha in Hb. discriminate.
Qed.


(** * Further properties *)

(** ** The download endpoint with a remembered file *)

Section DescargaProps.
Context {U : Unicode} (w : World).

Lemma generar_dataframe_archivo (filepath : string) (texto : str) :
  files w !! filepath = Some texto ->
  generar_dataframe w filepath = Ok (esperado w (datos_de w texto)).
Proof.
  intros H. unfold generar_dataframe, open_read. rewrite H.
  apply dataframe_de_esperado.
Qed.

Lemma generar_servido (session : gmap string string) (formato : str)
    (filepath : string) (texto : str) :
  session !! "last_file"%string = Some filepath ->
  filepath <> ""%string ->
  files w !! filepath = Some texto ->
  generar w session formato
  = match generar_reporte_memoria w (esperado w (datos_de w texto)) formato with
    | Ok archivo =>
        Ok (if bool_decide (formato = u "excel")
            then Attachment archivo "reporte.xlsx"
                   "application/vnd.openxmlformats-officedocument.spreadsheetml.sheet"
            else Attachment archivo "reporte.csv" "text/csv")
    | Raise e => Raise e
    end.
Proof.
  intros Hs Hne Hf. unfold generar. rewrite Hs, Hf.
  change (default ""%string (Some filepath)) with filepath.
  rewrite (proj2 (String.eqb_neq filepath "") Hne).
  rewrite bool_decide_eq_true_2 by eauto. cbn [negb orb].
  rewrite (generar_dataframe_archivo filepath texto Hf).
  cbn [mbind result_bind].
  destruct (generar_reporte_memoria w (esperado w (datos_de w texto)) formato);
    [|reflexivity].
  cbn [mbind result_bind]. now destruct (bool_decide (formato = u "excel")).
Qed.

(** X1.  With a remembered file that exists, the endpoint never answers
    with the 400 message: it serves the export of the parse of that file,
    named reporte.xlsx for "excel" and reporte.csv for anything else, or
    lets the exception of the export through. *)
Theorem generar_con_archivo (session : gmap string string) (formato : str)
    (filepath : string) (texto : str) :
  session !! "last_file"%string = Some filepath ->
  filepath <> ""%string ->
  files w !! filepath = Some texto ->
  exists df,
    dataframe_de w texto = Ok df
    /\ generar w session formato
       = match generar_reporte_memoria w df formato with
         | Ok archivo =>
             Ok (if bool_decide (formato = u "excel")
                 then Attachment archivo "reporte.xlsx"
                        "application/vnd.openxmlformats-officedocument.spreadsheetml.sheet"
                 else Attachment archivo "reporte.csv" "text/csv")
         | Raise e => Raise e
         end
    /\ generar w session formato <> Ok (Text aviso_sin_archivo 400).
Proof.
  intros Hs Hne Hf. exists (esperado w (datos_de w texto)).
  split; [apply dataframe_de_esperado|].
  pose proof (generar_servido session formato filepath texto Hs Hne Hf) as E.
  split; [exact E|]. rewrite E.
  destruct (generar_reporte_memoria w (esperado w (datos_de w texto)) formato);
    [|discriminate].
  destruct (bool_decide (formato = u "excel")); discriminate.
Qed.

(** X2.  A format the endpoint does not know is served exactly as "csv"
    is: same bytes, same download name, same media type. *)
Theorem generar_formato_desconocido (session : gmap string string) (formato : str) :
  formato <> u "excel" ->
  generar w session formato = generar w session (u "csv").
Proof.
  intros Hf. unfold generar, generar_reporte_memoria.
  rewrite !(bool_decide_eq_false_2 (formato = u "excel")) by exact Hf.
  rewrite !(bool_decide_eq_false_2 (u "csv" = u "excel"))
    by (vm_compute; discriminate).
  reflexivity.
Qed.

(** X3.  When the remembered file is no longer on disk the endpoint
    answers as if nothing had been uploaded. *)
Theorem generar_archivo_borrado (session : gmap string string) (formato : str)
    (filepath : string) :
  session !! "last_file"%string = Some filepath ->
  files w !! filepath = None ->
  generar w session formato = Ok (Text aviso_sin_archivo 400).
Proof.
  intros H Hf. unfold generar. rewrite H, Hf.
  rewrite bool_decide_eq_false_2 by (intros [x Hx]; discriminate).
  now rewrite orb_true_r.
Qed.

(** X4.  An empty remembered file is exported, not refused: the CSV is
    the byte-order mark and one line end, with no column labels. *)
Theorem generar_archivo_vacio (session : gmap string string) (formato : str)
    (filepath : string) :
  session !! "last_file"%string = Some filepath ->
  filepath <> ""%string ->
  files w !! filepath = Some [] ->
  formato <> u "excel" ->
  generar w session formato
  = Ok (Attachment [0xef; 0xbb; 0xbf; 0x0a] "reporte.csv" "text/csv").
Proof.
  intros Hs Hne Hf Hfmt.
  rewrite (generar_servido session formato filepath [] Hs Hne Hf).
  rewrite (generar_reporte_no_excel w _ formato Hfmt).
  rewrite bool_decide_eq_false_2 by exact Hfmt. reflexivity.
Qed.

End DescargaProps.

(** ** The upload endpoint *)

Lemma readlines_nil (s : str) : readlines s = [] -> s = [].
Proof.
  destruct s as [|c r]; [reflexivity|]. simpl.
  destruct (c =? 0x0a); [discriminate|].
  destruct (readlines r); discriminate.
Qed.

Section SubidaProps.
Context {U : Unicode}.
Context (secure_filename : str -> string) (to_html : DataFrame -> str).
Context (w : World).

Lemma df_empty_esperado (texto : str) :
  df_empty (esperado w (datos_de w texto))
  = match texto with [] => true | _ :: _ => false end.
Proof.
  destruct texto as [|c r]; [reflexivity|].
  destruct (readlines (c :: r)) as [|linea ls] eqn:E;
    [apply readlines_nil in E; discriminate|].
  assert (Hl : nth_error (readlines (c :: r)) 0 = Some linea) by now rewrite E.
  pose proof (col0_en_finales w (c :: r) 0 linea Hl) as Hin.
  unfold df_empty, esperado. cbn [rows columns].
  unfold datos_de at 2. rewrite E. cbn [List.map].
  destruct (finales (datos_de w (c :: r))); [destruct Hin | reflexivity].
Qed.

(** What [index] does with an upload it accepts. *)
Lemma index_aceptado (session : gmap string string) (file : upload) :
  up_filename file <> [] ->
  allowed_file (up_filename file) = Ok true ->
  let filepath :=
    path_join UPLOAD_FOLDER (nombre_guardado secure_filename (up_filename file)) in
  let session' := <["last_file"%string := filepath]> session in
  index secure_filename to_html w session
    {| req_method := POST; req_file := Some file |}
  = (con_archivo w filepath (up_texto file), session',
     Ok (pagina_de session'
           (aviso_subido (nombre_guardado secure_filename (up_filename file)))
           (match up_texto file with
            | [] => vista_vacia
            | _ :: _ =>
                to_html (df_head 20 (esperado w (datos_de w (up_texto file))))
            end))).
Proof.
  intros Hne Hal. cbv zeta. unfold index. cbn [req_method req_file].
  destruct (up_filename file) as [|c r] eqn:En; [congruence|].
  rewrite Hal. fold (nombre_guardado secure_filename (c :: r)).
  set (filepath := path_join UPLOAD_FOLDER (nombre_guardado secure_filename (c :: r))).
  assert (Hf : files (con_archivo w filepath (up_texto file)) !! filepath
               = Some (up_texto file)) by apply lookup_insert_eq.
  rewrite (generar_dataframe_archivo _ filepath (up_texto file) Hf).
  change (esperado (con_archivo w filepath (up_texto file))
            (datos_de (con_archivo w filepath (up_texto file)) (up_texto file)))
    with (esperado w (datos_de w (up_texto file))).
  rewrite df_empty_esperado. now destruct (up_texto file).
Qed.

(** X5.  An upload whose name is empty or is refused by [allowed_file]
    changes nothing: no file is saved, the session keeps what it had, and
    the page carries the warning and the placeholder preview. *)
Theorem index_rechaza (session : gmap string string) (file : upload) :
  up_filename file = [] \/ allowed_file (up_filename file) = Ok false ->
  index secure_filename to_html w session
    {| req_method := POST; req_file := Some file |}
  = (w, session, Ok (pagina_de session aviso_no_permitido vista_vacia)).
Proof.
  intros H. unfold index. cbn [req_method req_file].
  destruct (up_filename file) as [|c r]; [reflexivity|].
  destruct H as [H|H]; [discriminate | now rewrite H].
Qed.

(** X6.  An accepted upload is saved under uploads/ with the sanitized
    name (queue_log when that name is empty) and remembered in the
    session; no other file and no other session key changes, nothing is
    raised, the download buttons are enabled and the message names the
    saved file. *)
Theorem index_acepta (session : gmap string string) (file : upload) :
  up_filename file <> [] ->
  allowed_file (up_filename file) = Ok true ->
  let filename := nombre_guardado secure_filename (up_filename file) in
  let filepath := path_join UPLOAD_FOLDER filename in
  exists w' session' pg,
    index secure_filename to_html w session
      {| req_method := POST; req_file := Some file |}
    = (w', session', Ok pg)
    /\ files w' !! filepath = Some (up_texto file)
    /\ (forall q, q <> filepath -> files w' !! q = files w !! q)
    /\ session' !! "last_file"%string = Some filepath
    /\ (forall k, k <> "last_file"%string -> session' !! k = session !! k)
    /\ filename <> ""%string
    /\ mensaje pg = aviso_subido filename
    /\ botones_disabled pg = [].
Proof.
  intros Hne Hal filename filepath.
  eexists. eexists. eexists.
  split; [exact (index_aceptado session file Hne Hal)|].
  fold filename. fold filepath. cbn [files con_archivo mensaje botones_disabled pagina_de].
  split; [apply lookup_insert_eq|].
  split; [intros q Hq; now apply lookup_insert_ne|].
  split; [apply lookup_insert_eq|].
  split; [intros k Hk; now apply lookup_insert_ne|].
  split.
  - subst filename. unfold nombre_guardado.
    destruct (String.eqb_spec (secure_filename (up_filename file)) "");
      [discriminate | assumption].
  - split; [reflexivity|]. unfold hay_archivo. now rewrite lookup_insert_eq.
Qed.

(** X7.  The preview of an accepted upload is made from the first twenty
    rows of its parse, in order, with all its columns; an empty upload
    keeps the placeholder. *)
Theorem index_vista_previa (session : gmap string string) (file : upload) :
  up_filename file <> [] ->
  allowed_file (up_filename file) = Ok true ->
  exists w' session' pg df,
    index secure_filename to_html w session
      {| req_method := POST; req_file := Some file |}
    = (w', session', Ok pg)
    /\ dataframe_de w (up_texto file) = Ok df
    /\ (up_texto file = [] -> preview_html pg = vista_vacia)
    /\ (up_texto file <> [] ->
          exists vista,
            preview_html pg = to_html vista
            /\ columns vista = columns df
            /\ rows vista = take 20 (rows df)
            /\ length (rows vista) = Nat.min 20 (length (readlines (up_texto file)))
            /\ forall i, (i < 20)%nat ->
                 nth_error (rows vista) i = nth_error (rows df) i).
Proof.
  intros Hne Hal. eexists. eexists. eexists.
  exists (esperado w (datos_de w (up_texto file))).
  split; [exact (index_aceptado session file Hne Hal)|].
  split; [apply dataframe_de_esperado|].
  cbn [preview_html pagina_de]. split.
  - now intros ->.
  - intros Ht. destruct (up_texto file) as [|c r] eqn:E; [congruence|].
    exists (df_head 20 (esperado w (datos_de w (c :: r)))).
    split; [reflexivity|]. split; [reflexivity|]. split; [reflexivity|]. split.
    + cbn [rows df_head esperado]. unfold datos_de.
      now rewrite length_take, !length_map.
    + intros i Hi. cbn [rows df_head].
      generalize (rows (esperado w (datos_de w (c :: r)))). intros l.
      revert i Hi. generalize 20%nat. intros n. revert l.
      induction n as [|n IH]; intros l i Hi; [lia|].
      destruct l as [|x l]; [reflexivity|]. destruct i as [|i]; [reflexivity|].
      simpl. apply IH. lia.
Qed.

(** X8.  After an accepted upload the download endpoint, asked in the
    same session, serves the export of the parse of the uploaded text:
    it does not answer with the 400 message. *)
Theorem subir_y_descargar (session : gmap string string) (file : upload)
    (formato : str) :
  up_filename file <> [] ->
  allowed_file (up_filename file) = Ok true ->
  exists w' session' pg df,
    index secure_filename to_html w session
      {| req_method := POST; req_file := Some file |}
    = (w', session', Ok pg)
    /\ dataframe_de w (up_texto file) = Ok df
    /\ generar w' session' formato
       = adjunto formato <$> generar_reporte_memoria w df formato
    /\ generar w' session' formato <> Ok (Text aviso_sin_archivo 400).
Proof.
  intros Hne Hal. eexists. eexists. eexists.
  exists (esperado w (datos_de w (up_texto file))).
  split; [exact (index_aceptado session file Hne Hal)|].
  split; [apply dataframe_de_esperado|].
  set (filepath := path_join UPLOAD_FOLDER
                     (nombre_guardado secure_filename (up_filename file))).
  assert (E : generar (con_archivo w filepath (up_texto file))
                (<["last_file"%string := filepath]> session) formato
              = adjunto formato
                  <$> generar_reporte_memoria w
                        (esperado w (datos_de w (up_texto file))) formato).
  { rewrite (generar_servido _ _ formato filepath (up_texto file));
      [| apply lookup_insert_eq | discriminate | apply lookup_insert_eq].
    change (generar_reporte_memoria (con_archivo w filepath (up_texto file))
              (esperado (con_archivo w filepath (up_texto file))
                 (datos_de (con_archivo w filepath (up_texto file)) (up_texto file)))
              formato)
      with (generar_reporte_memoria w (esperado w (datos_de w (up_texto file))) formato).
    now destruct (generar_reporte_memoria w
                    (esperado w (datos_de w (up_texto file))) formato). }
  split; [exact E|]. rewrite E.
  destruct (generar_reporte_memoria w (esperado w (datos_de w (up_texto file))) formato);
    [|discriminate].
  unfold adjunto. cbn [fmap result_fmap].
  destruct (bool_decide (formato = u "excel")); discriminate.
Qed.

End SubidaProps.

(** *** The endpoints on the scenario *)

Lemma generar_con_archivo_witness :
  @generar basic_unicode escenario_mundo sesion_escenario (u "csv")
  <> Ok (Text aviso_sin_archivo 400).
Proof.
  assert (Hne : "uploads/queue_log"%string <> ""%string) by discriminate.
  destruct (@generar_con_archivo basic_unicode escenario_mundo sesion_escenario
              (u "csv") "uploads/queue_log" (escenario_linea ++ [0x0a])
              eq_refl Hne eq_refl) as (df & _ & _ & H).
  exact H.
Defined.

Lemma generar_formato_desconocido_witness :
  @generar basic_unicode escenario_mundo sesion_escenario (u "pdf")
  = @generar basic_unicode escenario_mundo sesion_escenario (u "csv").
Proof.
  assert (H : u "pdf" <> u "excel") by (vm_compute; discriminate).
  exact (@generar_formato_desconocido basic_unicode escenario_mundo
           sesion_escenario (u "pdf") H).
Defined.

Lemma generar_archivo_borrado_witness :
  @generar basic_unicode mundo_sin_eventos sesion_escenario (u "excel")
  = Ok (Text aviso_sin_archivo 400).
Proof.
  exact (@generar_archivo_borrado basic_unicode mundo_sin_eventos sesion_escenario
           (u "excel") "uploads/queue_log" eq_refl eq_refl).
Defined.

Lemma generar_archivo_vacio_witness :
  @generar basic_unicode
    (mundo {[ "uploads/queue_log"%string := [] ]} (Raise OSError))
    sesion_escenario (u "csv")
  = Ok (Attachment [0xef; 0xbb; 0xbf; 0x0a] "reporte.csv" "text/csv").
Proof.
  assert (Hne : "uploads/queue_log"%string <> ""%string) by discriminate.
  assert (H : u "csv" <> u "excel") by (vm_compute; discriminate).
  exact (@generar_archivo_vacio basic_unicode
           (mundo {[ "uploads/queue_log"%string := [] ]} (Raise OSError))
           sesion_escenario (u "csv") "uploads/queue_log" eq_refl Hne eq_refl H).
Defined.

Lemma index_rechaza_witness :
  @index basic_unicode secure_de_prueba html_de_prueba mundo_sin_eventos ∅
    {| req_method := POST;
       req_file := Some {| up_filename := u "virus.exe"; up_texto := u "x" |} |}
  = (mundo_sin_eventos, ∅, Ok (pagina_de ∅ aviso_no_permitido vista_vacia)).
Proof.
  apply (@index_rechaza basic_unicode secure_de_prueba html_de_prueba
           mundo_sin_eventos ∅
           {| up_filename := u "virus.exe"; up_texto := u "x" |}).
  right. vm_compute. reflexivity.
Defined.

Lemma index_acepta_witness :
  exists w' session' pg,
    @index basic_unicode secure_de_prueba html_de_prueba mundo_sin_eventos ∅
      {| req_method := POST; req_file := Some subida_escenario |}
    = (w', session', Ok pg)
    /\ files w' !! "uploads/queue.LOG"%string = Some (escenario_linea ++ [0x0a])
    /\ session' !! "last_file"%string = Some "uploads/queue.LOG"%string.
Proof.
  assert (Hne : up_filename subida_escenario <> []) by discriminate.
  assert (Hal : @allowed_file basic_unicode (up_filename subida_escenario) = Ok true)
    by (vm_compute; reflexivity).
  destruct (@index_acepta basic_unicode secure_de_prueba html_de_prueba
              mundo_sin_eventos ∅ subida_escenario Hne Hal)
    as (w' & session' & pg & H1 & H2 & _ & H4 & _).
  exists w', session', pg. split; [exact H1|]. split; [exact H2 | exact H4].
Defined.

Lemma index_vista_previa_witness :
  exists w' session' pg df,
    @index basic_unicode secure_de_prueba html_de_prueba mundo_sin_eventos ∅
      {| req_method := POST; req_file := Some subida_escenario |}
    = (w', session', Ok pg)
    /\ @dataframe_de basic_unicode mundo_sin_eventos (up_texto subida_escenario) = Ok df.
Proof.
  assert (Hne : up_filename subida_escenario <> []) by discriminate.
  assert (Hal : @allowed_file basic_unicode (up_filename subida_escenario) = Ok true)
    by (vm_compute; reflexivity).
  destruct (@index_vista_previa basic_unicode secure_de_prueba html_de_prueba
              mundo_sin_eventos ∅ subida_escenario Hne Hal)
    as (w' & session' & pg & df & H1 & H2 & _).
  exists w', session', pg, df. split; [exact H1 | exact H2].
Defined.

Lemma subir_y_descargar_witness :
  exists w' session' pg,
    @index basic_unicode secure_de_prueba html_de_prueba mundo_sin_eventos ∅
      {| req_method := POST; req_file := Some subida_escenario |}
    = (w', session', Ok pg)
    /\ @generar basic_unicode w' session' (u "csv") <> Ok (Text aviso_sin_archivo 400).
Proof.
  assert (Hne : up_filename subida_escenario <> []) by discriminate.
  assert (Hal : @allowed_file basic_unicode (up_filename subida_escenario) = Ok true)
    by (vm_compute; reflexivity).
  destruct (@subir_y_descargar basic_unicode secure_de_prueba html_de_prueba
              mundo_sin_eventos ∅ subida_escenario (u "csv") Hne Hal)
    as (w' & session' & pg & df & H1 & _ & _ & H4).
  exists w', session', pg. split; [exact H1 | exact H4].
Defined.

Example subida_escenario_pagina :
  @index basic_unicode secure_de_prueba html_de_prueba mundo_sin_eventos ∅
    {| req_method := POST; req_file := Some subida_escenario |}
  = (con_archivo mundo_sin_eventos "uploads/queue.LOG" (escenario_linea ++ [0x0a]),
     {[ "last_file"%string := "uploads/queue.LOG"%string ]},
     Ok {| mensaje := [0x2705] ++ u " Archivo <b>queue.LOG</b> subido con "
                      ++ [0xe9] ++ u "xito.";
           botones_disabled := [];
           preview_html := u "<table rows=1>" |}).
Proof.
  assert (Hne : up_filename subida_escenario <> []) by discriminate.
  assert (Hal : @allowed_file basic_unicode (up_filename subida_escenario) = Ok true)
    by (vm_compute; reflexivity).
  rewrite (@index_aceptado basic_unicode secure_de_prueba html_de_prueba
             mundo_sin_eventos ∅ subida_escenario Hne Hal).
  assert (En : nombre_guardado secure_de_prueba (up_filename subida_escenario)
               = "queue.LOG"%string) by (vm_compute; reflexivity).
  rewrite En. cbn [up_texto subida_escenario].
  reflexivity.
Qed.

(** ** More on the parse *)

Section MasIngestion.
Context {U : Unicode} (w : World).

(** X9.  The block that moves fecha_legible next to col0 has no effect
    on the result: the parse is the same without it. *)
Theorem reordenar_sin_efecto (contenido : str) :
  dataframe_de w contenido = dataframe_sin_reordenar w contenido.
Proof.
  rewrite dataframe_de_esperado. unfold dataframe_sin_reordenar.
  rewrite frame_tab. cbn [columns tab].
  fold (finales (datos_de w contenido)).
  rewrite select_tab.
  - cbn [mbind result_bind]. f_equal. unfold esperado, finales.
    rewrite filter_necesarias. symmetry. apply traducir_pick.
  - intros c Hc. apply finales_In in Hc as [_ Hc]. now apply frame_columns_In.
Qed.

(** X10.  [generar_dataframe] raises exactly when the file cannot be
    opened, and then with the error of [open]. *)
Theorem generar_dataframe_error (filepath : string) (e : exn) :
  generar_dataframe w filepath = Raise e
  <-> files w !! filepath = None /\ e = OSError.
Proof.
  unfold generar_dataframe, open_read.
  destruct (files w !! filepath) as [texto|] eqn:E; cbn [mbind result_bind].
  - rewrite dataframe_de_esperado. split; [discriminate | intros [H _]; discriminate].
  - split; [intros [= <-]; now split | intros [_ ->]; reflexivity].
Qed.

Lemma columnas_pick (b0 b1 b2 b3 b4 : bool) :
  let cols := List.map renombrar
                (pick b0 "col0" ++ pick b1 "fecha_legible" ++ pick b2 "col2"
                 ++ pick b3 "col4" ++ pick b4 "col6") in
  NoDup cols
  /\ forall c, In c cols ->
       In c ["timestamp"; "fecha_legible"; "cola"; "evento"; "numero_telefono"]%string.
Proof.
  destruct b0, b1, b2, b3, b4; cbn; split;
    try (intros c Hc; tauto);
    repeat (constructor; [rewrite ?list_elem_of_In; simpl; intuition discriminate|]);
    constructor.
Qed.

Lemma fila_en_salida (contenido : str) (row : list cell) :
  In row (rows (esperado w (datos_de w contenido))) ->
  exists i linea,
    nth_error (readlines contenido) i = Some linea
    /\ row = fila_final w (finales (datos_de w contenido)) (fila_de_linea w linea).
Proof.
  unfold esperado, datos_de. cbn [rows]. rewrite List.map_map.
  intros H. apply in_map_iff in H as (linea & <- & Hin).
  apply In_nth_error in Hin as [i Hi]. eauto.
Qed.

(** X11.  The frame of a parse has no two columns with the same label,
    and its labels are among timestamp, fecha_legible, cola, evento,
    numero_telefono.  When the file is not empty the first two columns
    are timestamp and fecha_legible.  Every row has one cell per column;
    its timestamp is a string, never missing, and its fecha_legible is a
    timestamp reading or None, never missing and never a string. *)
Theorem forma_de_la_salida (contenido : str) :
  exists df,
    dataframe_de w contenido = Ok df
    /\ NoDup (columns df)
    /\ (forall c, In c (columns df) ->
          In c ["timestamp"; "fecha_legible"; "cola"; "evento";
                "numero_telefono"]%string)
    /\ (contenido <> [] ->
          exists resto,
            columns df = "timestamp"%string :: "fecha_legible"%string :: resto)
    /\ (forall row, In row (rows df) ->
          length row = length (columns df)
          /\ (exists s, cell_at (columns df) row "timestamp" = Some (VStr s))
          /\ (cell_at (columns df) row "fecha_legible" = Some VNone
              \/ exists d, cell_at (columns df) row "fecha_legible"
                           = Some (VDatetime d))).
Proof.
  exists (esperado w (datos_de w contenido)).
  split; [apply dataframe_de_esperado|].
  split; [|split; [|split]].
  - cbn [columns esperado]. unfold finales. rewrite filter_necesarias.
    apply columnas_pick.
  - cbn [columns esperado]. unfold finales. rewrite filter_necesarias.
    apply columnas_pick.
  - intros Hne. destruct (readlines contenido) as [|linea ls] eqn:E;
      [apply readlines_nil in E; contradiction|].
    assert (Hl : nth_error (readlines contenido) 0 = Some linea) by now rewrite E.
    pose proof (col0_en_finales w contenido 0 linea Hl) as H0.
    pose proof (fecha_en_finales w contenido 0 linea Hl) as H1.
    unfold finales in H0, H1. apply List.filter_In in H0 as [_ H0].
    apply List.filter_In in H1 as [_ H1].
    cbn [columns esperado]. unfold finales. rewrite filter_necesarias, H0, H1.
    cbn [pick app List.map]. rewrite renombrar_col0, renombrar_fecha. eauto.
  - intros row Hrow. apply fila_en_salida in Hrow as (i & linea & Hl & ->).
    split; [|split].
    + cbn [columns esperado]. unfold fila_final. now rewrite !length_map.
    + pose proof (celda_final w (datos_de w contenido) (fila_de_linea w linea)
                    "col0" (col0_en_finales w contenido i linea Hl)) as E.
      rewrite renombrar_col0 in E. cbn [columns esperado].
      rewrite E, traducida_other by discriminate.
      destruct (split_cons pipe (strip linea)) as (h & t & Hs).
      change "col0"%string with (col 0).
      rewrite (fila_col w linea 0 h) by now rewrite Hs. eauto.
    + rewrite (celda_fecha w contenido i linea Hl).
      destruct (ts ← py_int (primer_campo linea);
                fromtimestamp (localtime_ok w) (utcoffset w) ts); eauto.
Qed.

(** X12.  The translation step touches the evento column only: whatever
    eventos.json holds, the timestamp, cola and numero_telefono cells of
    row [i] are fields 0, 2 and 6 of line [i], stripped and normalized,
    even when their text is a key of the table. *)
Theorem traduccion_solo_evento (contenido : str) (i j : nat) (linea campo : str) :
  nth_error (readlines contenido) i = Some linea ->
  (j = 0 \/ j = 2 \/ j = 6)%nat ->
  nth_error (split pipe (strip linea)) j = Some campo ->
  exists df row,
    dataframe_de w contenido = Ok df
    /\ nth_error (rows df) i = Some row
    /\ cell_at (columns df) row
         (match j with
          | 0%nat => "timestamp" | 2%nat => "cola" | _ => "numero_telefono"
          end)%string
       = Some (VStr (normalize NFKC (strip campo))).
Proof.
  intros Hl Hj Hc. eexists. eexists.
  split; [apply dataframe_de_esperado|].
  split; [exact (fila_de_salida w contenido i linea Hl)|].
  assert (Hin : In (col j) (finales (datos_de w contenido))).
  { apply finales_In. split.
    - destruct Hj as [->|[->| ->]]; unfold necesarias; simpl; tauto.
    - exists (fila_de_linea w linea). split; [eapply linea_en_datos, Hl|].
      apply fila_keys. right. exists j. split; [|reflexivity].
      apply nth_error_Some. now rewrite Hc. }
  pose proof (celda_final w (datos_de w contenido) (fila_de_linea w linea)
                (col j) Hin) as E.
  rewrite traducida_other, (fila_col w linea j campo Hc) in E
    by (destruct Hj as [->|[->| ->]]; discriminate).
  cbn [columns esperado]. rewrite <- E.
  destruct Hj as [->|[->| ->]]; reflexivity.
Qed.

End MasIngestion.

Lemma traduccion_solo_evento_witness :
  exists df row,
    @dataframe_de basic_unicode escenario_mundo (u "EVT1|x|EVT1|y|EVT1") = Ok df
    /\ nth_error (rows df) 0 = Some row
    /\ cell_at (columns df) row "cola" = Some (VStr (u "EVT1")).
Proof.
  exact (@traduccion_solo_evento basic_unicode escenario_mundo
           (u "EVT1|x|EVT1|y|EVT1") 0 2 (u "EVT1|x|EVT1|y|EVT1") (u "EVT1")
           eq_refl (or_intror (or_introl eq_refl)) eq_refl).
Defined.

(** ** Lines and fields *)

Lemma readlines_concat (s : str) : concat (readlines s) = s.
Proof.
  induction s as [|c r IH]; [reflexivity|]. simpl.
  destruct (c =? 0x0a); [simpl; now rewrite IH|].
  destruct (readlines r) as [|h t] eqn:E.
  - apply readlines_nil in E. now subst.
  - simpl in *. now rewrite IH.
Qed.

Lemma readlines_length (s : str) :
  length (readlines s)
  = (count_occ N.eq_dec s LF + if (List.last s LF =? LF)%N then 0 else 1)%nat.
Proof.
  induction s as [|c r IH]; [reflexivity|].
  assert (Hlast : r <> [] -> List.last (c :: r) LF = List.last r LF)
    by (destruct r; [congruence | reflexivity]).
  cbn [readlines]. change 0x0a with LF.
  destruct (N.eqb_spec c LF) as [->|Hne].
  - rewrite count_occ_cons_eq by reflexivity. cbn [length]. rewrite IH.
    destruct r as [|x r]; [reflexivity|]. now rewrite Hlast by discriminate.
  - rewrite count_occ_cons_neq by exact Hne.
    destruct (readlines r) as [|h t] eqn:E.
    + apply readlines_nil in E. subst r. cbn.
      now rewrite (proj2 (N.eqb_neq c LF) Hne).
    + assert (Hr : r <> []) by (intros ->; discriminate).
      rewrite Hlast by exact Hr. exact IH.
Qed.

Lemma split_join (sep : N) (s : str) : join sep (split sep s) = s.
Proof.
  induction s as [|c r IH]; [reflexivity|]. simpl.
  destruct (split_cons sep r) as (h & t & E). rewrite E in *.
  destruct (N.eqb_spec c sep) as [->|Hne].
  - change (join sep ([] :: h :: t)) with (sep :: join sep (h :: t)).
    now rewrite IH.
  - destruct t as [|h2 t].
    + change (join sep [c :: h]) with (c :: join sep [h]). now rewrite IH.
    + change (join sep ((c :: h) :: h2 :: t)) with (c :: join sep (h :: h2 :: t)).
      now rewrite IH.
Qed.

Lemma split_length (sep : N) (s : str) :
  length (split sep s) = S (count_occ N.eq_dec s sep).
Proof.
  induction s as [|c r IH]; [reflexivity|]. simpl.
  destruct (split_cons sep r) as (h & t & E). rewrite E in *.
  destruct (N.eqb_spec c sep) as [->|Hne].
  - destruct (N.eq_dec sep sep); [|congruence]. simpl in *. now rewrite IH.
  - destruct (N.eq_dec c sep); [congruence|]. exact IH.
Qed.

Lemma split_sin_sep (sep : N) (s : str) :
  Forall (fun f => ~ In sep f) (split sep s).
Proof.
  induction s as [|c r IH]; simpl.
  - constructor; [intros [] | constructor].
  - destruct (N.eqb_spec c sep) as [->|Hne].
    + constructor; [intros [] | exact IH].
    + destruct (split sep r) as [|h t]; [constructor; [|constructor]|].
      * intros [H|[]]. congruence.
      * inversion IH as [|? ? Hh Ht]; subst. constructor; [|exact Ht].
        intros [H|H]; [congruence | contradiction].
Qed.

Lemma keys_set_fresh (k : string) (v : value) (d : dict) :
  ~ In k (keys d) -> keys (dict_set k v d) = keys d ++ [k].
Proof.
  unfold keys. induction d as [|[k0 v0] r IH]; simpl; [reflexivity|].
  intros H. destruct (String.eqb_spec k k0) as [->|Hne].
  - exfalso. apply H. now left.
  - simpl. rewrite IH; [reflexivity|]. intros Hi. apply H. now right.
Qed.

Section LineasYCampos.
Context {U : Unicode} (w : World).

Lemma llenar_keys_eq (partes : list str) (i : nat) (fila : dict) :
  (forall j, ~ In (col (i + j)) (keys fila)) ->
  keys (llenar i partes fila)
  = keys fila ++ List.map col (seq i (length partes)).
Proof.
  revert i fila. induction partes as [|valor r IH]; intros i fila H; simpl.
  - now rewrite app_nil_r.
  - rewrite IH.
    + rewrite keys_set_fresh by (rewrite <- (Nat.add_0_r i); apply H).
      now rewrite <- app_assoc.
    + intros j. rewrite keys_set_fresh by (rewrite <- (Nat.add_0_r i); apply H).
      rewrite in_app_iff. intros [Hin|[Heq|[]]].
      * apply (H (S j)). now replace (i + S j)%nat with (S i + j)%nat by lia.
      * apply col_inj in Heq. lia.
Qed.

(** X13.  The number of rows is the number of line ends in the file,
    plus one when the file does not end with a line end: a last line
    without a line end still gives a row, and a file that ends with a
    line end gives no extra row. *)
Theorem filas_y_saltos (contenido : str) :
  exists df,
    dataframe_de w contenido = Ok df
    /\ length (rows df)
       = (count_occ N.eq_dec contenido LF
          + if (List.last contenido LF =? LF)%N then 0 else 1)%nat.
Proof.
  exists (esperado w (datos_de w contenido)).
  split; [apply dataframe_de_esperado|].
  unfold esperado, datos_de. cbn [rows].
  rewrite !length_map. apply readlines_length.
Qed.

(** X14.  Cutting a line at the pipes loses nothing: the fields joined
    with pipes are the trimmed line, no field holds a pipe, and there is
    one more field than there are pipes.  The dictionary of the line has
    the keys col0, col1, ... for these fields, in order, and then
    fecha_legible, and no other key. *)
Theorem campos_y_claves (linea : str) :
  let partes := split pipe (strip linea) in
  join pipe partes = strip linea
  /\ Forall (fun f => ~ In pipe f) partes
  /\ length partes = S (count_occ N.eq_dec (strip linea) pipe)
  /\ keys (fila_de_linea w linea)
     = List.map col (seq 0 (length partes)) ++ ["fecha_legible"%string].
Proof.
  cbv zeta. split; [apply split_join|]. split; [apply split_sin_sep|].
  split; [apply split_length|].
  unfold fila_de_linea.
  assert (E : keys (llenar 0 (split pipe (strip linea)) [])
              = List.map col (seq 0 (length (split pipe (strip linea)))))
    by (rewrite llenar_keys_eq; [reflexivity | intros j []]).
  rewrite keys_set_fresh; [now rewrite E|].
  rewrite E. intros H. apply in_map_iff in H as (j & Hj & _).
  now apply col_fecha in Hj.
Qed.

End LineasYCampos.

(** X15.  Reading the lines of a file loses nothing: the lines put end
    to end are the text of the file. No line is empty, and a line end
    occurs in a line only as its last character. *)
Theorem readlines_sin_perdida (s : str) :
  concat (readlines s) = s
  /\ Forall (fun l => l <> [] /\ ~ In LF (removelast l)) (readlines s).
Proof.
  split; [apply readlines_concat|].
  induction s as [|c r IH]; [constructor|]. cbn [readlines]. change 0x0a with LF.
  destruct (N.eqb_spec c LF) as [->|Hne].
  - constructor; [|exact IH]. split; [discriminate | intros []].
  - destruct (readlines r) as [|h t]; [constructor; [|constructor]|].
    + split; [discriminate | intros []].
    + inversion IH as [|? ? [Hh1 Hh2] Ht]; subst. constructor; [|exact Ht].
      split; [discriminate|]. destruct h as [|x h]; [congruence|].
      change (removelast (c :: x :: h)) with (c :: removelast (x :: h)).
      intros [H|H]; [congruence | contradiction].
Qed.

(** ** What the result depends on *)

Lemma dict_get_retenido (c : string) (d : dict) :
  In c necesarias ->
  dict_get c d = nth (default 0%nat (index_of c necesarias)) (retenido d) None.
Proof.
  unfold necesarias. simpl.
  intros [<-|[<-|[<-|[<-|[<-|[]]]]]]; reflexivity.
Qed.

Lemma retenido_dict_get (d1 d2 : dict) (c : string) :
  retenido d1 = retenido d2 -> In c necesarias -> dict_get c d1 = dict_get c d2.
Proof.
  intros E Hc. now rewrite !dict_get_retenido, E by exact Hc.
Qed.

Lemma mem_keys (c : string) (d : dict) :
  mem c (keys d) = match dict_get c d with Some _ => true | None => false end.
Proof.
  apply eq_true_iff_eq. rewrite mem_In, dict_get_keys.
  destruct (dict_get c d); split; congruence.
Qed.

Lemma map_eq_Forall2 {A B} (f : A -> B) (l1 l2 : list A) :
  List.map f l1 = List.map f l2 -> Forall2 (fun a b => f a = f b) l1 l2.
Proof.
  revert l2. induction l1 as [|a l1 IH]; intros [|b l2] H; try discriminate.
  - constructor.
  - injection H as H1 H2. constructor; [exact H1 | now apply IH].
Qed.

Section Dependencia.
Context {U : Unicode} (w : World).

Lemma esperado_retenido (datos1 datos2 : list dict) :
  Forall2 (fun a b => retenido a = retenido b) datos1 datos2 ->
  esperado w datos1 = esperado w datos2.
Proof.
  intros H.
  assert (Hf : finales datos1 = finales datos2).
  { rewrite !finales_existsb. apply List.filter_ext_in. intros c Hc.
    induction H as [|d1 d2 l1 l2 Hd Hl IH]; [reflexivity|]. simpl.
    now rewrite IH, !mem_keys, (retenido_dict_get d1 d2 c Hd Hc). }
  unfold esperado. rewrite <- Hf. f_equal.
  assert (Hsub : forall c, In c (finales datos1) -> In c necesarias)
    by (intros c Hc; now apply finales_In in Hc).
  revert Hsub. generalize (finales datos1). intros fs Hsub. clear Hf.
  induction H as [|d1 d2 l1 l2 Hd Hl IH]; [reflexivity|]. simpl.
  rewrite IH. f_equal. unfold fila_final. apply map_ext_in. intros c Hc.
  now rewrite (retenido_dict_get d1 d2 c Hd (Hsub c Hc)).
Qed.

(** X16.  The result depends on the lines only through what each stores
    under col0, fecha_legible, col2, col4 and col6: two files whose lines
    agree on these give the same frame, whatever their other fields
    hold. *)
Theorem salida_depende_de_retenido (c1 c2 : str) :
  List.map retenido (datos_de w c1) = List.map retenido (datos_de w c2) ->
  dataframe_de w c1 = dataframe_de w c2.
Proof.
  intros H. rewrite !dataframe_de_esperado. f_equal.
  now apply esperado_retenido, map_eq_Forall2.
Qed.

Lemma fromtimestamp_Ok (ok : Z -> bool) (off : Z -> Z) (ts : Z) (d : datetime) :
  fromtimestamp ok off ts = Ok d ->
  ok ts = true /\ (1 <= year d <= 9999)%Z /\ d = calendar (ts + off ts).
Proof.
  unfold fromtimestamp, MINYEAR, MAXYEAR. cbv zeta.
  destruct (ok ts); cbn [andb]; [|discriminate].
  destruct (Z.leb_spec 1 (year (calendar (ts + off ts)))); cbn [andb]; [|discriminate].
  destruct (Z.leb_spec (year (calendar (ts + off ts))) 9999); [|discriminate].
  intros [= <-]. repeat split; assumption.
Qed.

(** X17.  A timestamp reading appears under fecha_legible only when the
    first field of the line parses as an integer that the platform's
    conversion takes; the reading is then a date between years 1 and
    9999 with a time of day, and it denotes that integer as seconds from
    the epoch, moved by the local offset. *)
Theorem fecha_presente_es_valida (contenido : str) (i : nat) (linea : str)
    (df : DataFrame) (row : list cell) (d : datetime) :
  nth_error (readlines contenido) i = Some linea ->
  dataframe_de w contenido = Ok df ->
  nth_error (rows df) i = Some row ->
  cell_at (columns df) row "fecha_legible" = Some (VDatetime d) ->
  exists ts,
    py_int (primer_campo linea) = Ok ts
    /\ localtime_ok w ts = true
    /\ (1 <= year d <= 9999)%Z
    /\ fecha_valida d
    /\ instante d = (ts + utcoffset w ts)%Z.
Proof.
  intros Hl Hdf Hrow Hcell. rewrite dataframe_de_esperado in Hdf.
  injection Hdf as <-.
  rewrite (fila_de_salida w contenido i linea Hl) in Hrow. injection Hrow as <-.
  rewrite (celda_fecha w contenido i linea Hl) in Hcell.
  destruct (py_int (primer_campo linea)) as [ts|e]; [|discriminate].
  cbn [mbind result_bind] in Hcell.
  destruct (fromtimestamp (localtime_ok w) (utcoffset w) ts) as [d'|e] eqn:E;
    [|discriminate].
  injection Hcell as ->. apply fromtimestamp_Ok in E as (Hok & Hy & ->).
  exists ts. split; [reflexivity|]. split; [exact Hok|]. split; [exact Hy|].
  pose proof (calendar_correct (ts + utcoffset w ts)) as H. cbv zeta in H.
  unfold fecha_valida, instante. tauto.
Qed.

End Dependencia.

(** X18.  Two instants that [datetime.fromtimestamp] reads as the same
    date and time are the same local instant; where the offset from UTC
    is the same for both they are equal. *)
Theorem fromtimestamp_inyectiva (ok : Z -> bool) (off : Z -> Z) (t1 t2 : Z)
    (d : datetime) :
  fromtimestamp ok off t1 = Ok d ->
  fromtimestamp ok off t2 = Ok d ->
  (t1 + off t1 = t2 + off t2)%Z /\ (off t1 = off t2 -> t1 = t2).
Proof.
  intros H1 H2.
  apply fromtimestamp_Ok in H1 as (_ & _ & E1).
  apply fromtimestamp_Ok in H2 as (_ & _ & E2).
  pose proof (calendar_correct (t1 + off t1)) as C1.
  pose proof (calendar_correct (t2 + off t2)) as C2.
  cbv zeta in C1, C2. rewrite <- E1 in C1. rewrite <- E2 in C2.
  assert (E : (t1 + off t1 = t2 + off t2)%Z)
    by (destruct C1 as (_ & _ & _ & _ & _ & <-); now destruct C2 as (_ & _ & _ & _ & _ & <-)).
  split; [exact E | intros Ho; lia].
Qed.

Lemma salida_depende_de_retenido_witness :
  @dataframe_de basic_unicode mundo_sin_eventos (u "a|b|c")
  = @dataframe_de basic_unicode mundo_sin_eventos (u "a|otro|c|d").
Proof.
  apply (@salida_depende_de_retenido basic_unicode mundo_sin_eventos).
  vm_compute. reflexivity.
Defined.

Lemma fecha_presente_es_valida_witness :
  exists ts,
    @py_int basic_unicode (primer_campo (escenario_linea ++ [0x0a])) = Ok ts
    /\ instante {| year := 2023; month := 11; day := 14;
                   hour := 22; minute := 13; second := 20 |}
       = (ts + utcoffset escenario_mundo ts)%Z.
Proof.
  destruct (@fecha_presente_es_valida basic_unicode escenario_mundo
              (escenario_linea ++ [0x0a]) 0 (escenario_linea ++ [0x0a])
              escenario_df
              [Some (VStr (u "1700000000"));
               Some (VDatetime {| year := 2023; month := 11; day := 14;
                                  hour := 22; minute := 13; second := 20 |});
               Some (VStr (u "queueA")); Some (VStr (u "Login"));
               Some (VStr (u "5551234"))]
              {| year := 2023; month := 11; day := 14;
                 hour := 22; minute := 13; second := 20 |}
              eq_refl) as (ts & H1 & _ & _ & _ & H5).
  - vm_compute. reflexivity.
  - reflexivity.
  - reflexivity.
  - exists ts. split; [exact H1 | exact H5].
Defined.

Lemma fromtimestamp_inyectiva_witness :
  (1700000000 + 0 = 1700000000 + 0)%Z.
Proof.
  exact (proj1 (fromtimestamp_inyectiva (fun _ => true) (fun _ => 0%Z)
                  1700000000 1700000000
                  {| year := 2023; month := 11; day := 14;
                     hour := 22; minute := 13; second := 20 |}
                  eq_refl eq_refl)).
Defined.

(** ** From the stored file to the records of the download *)

Section PuntaAPunta.
Context {U : Unicode} (w : World).

Lemma finales_cabeza (contenido : str) (i : nat) (linea : str) :
  nth_error (readlines contenido) i = Some linea ->
  exists resto,
    finales (datos_de w contenido)
    = "col0"%string :: "fecha_legible"%string :: resto.
Proof.
  intros H.
  pose proof (col0_en_finales w contenido i linea H) as H0.
  pose proof (fecha_en_finales w contenido i linea H) as H1.
  apply finales_In in H0 as (_ & H0). apply finales_In in H1 as (_ & H1).
  apply frame_columns_In, mem_In in H0. apply frame_columns_In, mem_In in H1.
  unfold finales. rewrite filter_necesarias, H0, H1. cbn [pick app]. eauto.
Qed.

(** X19.  What a CSV download holds, from the stored file to the bytes:
    read back, it is a header record followed by one record per line of
    the file, in the order of the lines; as soon as the file has a line
    the header starts with timestamp and fecha_legible, and the record
    of a line starts with the first field of the line, trimmed and in
    form NFKC. *)
Theorem descarga_de_punta_a_punta (session : gmap string string) (formato : str)
    (filepath : string) (texto : str) (bs : bytes) (nombre mime : string) :
  session !! "last_file"%string = Some filepath ->
  filepath <> ""%string ->
  files w !! filepath = Some texto ->
  formato <> u "excel" ->
  generar w session formato = Ok (Attachment bs nombre mime) ->
  exists cabecera registros,
    releer bs = Some (cabecera :: registros)
    /\ length registros = length (readlines texto)
    /\ (texto <> [] ->
        exists resto, cabecera = u "timestamp" :: u "fecha_legible" :: resto)
    /\ forall i linea, nth_error (readlines texto) i = Some linea ->
         exists resto,
           nth_error registros i
           = Some (normalize NFKC (strip (primer_campo linea)) :: resto).
Proof.
  intros Hs Hne Hf Hfmt Hg.
  rewrite (generar_servido w session formato filepath texto Hs Hne Hf) in Hg.
  rewrite (generar_reporte_no_excel w _ formato Hfmt) in Hg.
  destruct (utf8 (to_csv w (esperado w (datos_de w texto)))) as [b|e] eqn:E;
    [|discriminate].
  rewrite bool_decide_eq_false_2 in Hg by exact Hfmt.
  cbn [fmap result_fmap] in Hg. injection Hg as <- _ _.
  exists (List.map u (columns (esperado w (datos_de w texto)))),
         (List.map (render_row w (rows (esperado w (datos_de w texto))))
            (rows (esperado w (datos_de w texto)))).
  split; [|split; [|split]].
  - unfold releer.
    change (decode_utf8_sig _) with (decode_utf8_sig (BOM ++ b)).
    rewrite (decode_utf8_sig_BOM b), (decode_utf8_utf8 _ b E).
    cbn [fmap option_fmap option_map]. f_equal.
    rewrite to_csv_textos. apply leer_csv_writerows.
  - unfold esperado, datos_de. cbn [rows]. now rewrite !length_map.
  - intros Hn. destruct (readlines texto) as [|l0 ls] eqn:El;
      [apply readlines_nil in El; contradiction|].
    destruct (finales_cabeza texto 0 l0) as [resto Hr]; [now rewrite El|].
    exists (List.map u (List.map renombrar resto)).
    unfold esperado. cbn [columns]. rewrite Hr. reflexivity.
  - intros i linea Hl.
    destruct (finales_cabeza texto i linea Hl) as [resto Hr].
    rewrite nth_error_map, (fila_de_salida w texto i linea Hl).
    cbn [option_map]. rewrite Hr. unfold fila_final. cbn [List.map].
    rewrite traducida_other by discriminate.
    change "col0"%string with (col 0).
    rewrite (fila_col w linea 0 (primer_campo linea)).
    + unfold render_row. cbn. eauto.
    + unfold primer_campo.
      destruct (split_cons pipe (strip linea)) as (h & t & ->). reflexivity.
Qed.

End PuntaAPunta.

(** ** When the export fails *)

Lemma utf8_char_Ok (c : N) (b : bytes) : utf8_char c = Ok b -> es_escalar c.
Proof.
  unfold es_escalar, utf8_char.
  destruct (N.ltb_spec c 0x80) as [A1|A1]; [lia|].
  destruct (N.ltb_spec c 0x800) as [A2|A2]; [lia|].
  destruct (N.leb_spec 0xd800 c) as [A3|A3];
    destruct (N.leb_spec c 0xdfff) as [A4|A4]; cbn [andb]; try discriminate;
    destruct (N.ltb_spec c 0x10000) as [A5|A5]; try lia;
    destruct (N.ltb_spec c 0x110000) as [A6|A6]; try lia; discriminate.
Qed.

Lemma utf8_char_Raise (c : N) (e : exn) :
  utf8_char c = Raise e -> e = UnicodeEncodeError.
Proof.
  unfold utf8_char.
  repeat match goal with
         | |- context [if ?b then _ else _] => destruct b
         end; congruence.
Qed.

Lemma utf8_Ok (s : str) (b : bytes) : utf8 s = Ok b -> Forall es_escalar s.
Proof.
  revert b. induction s as [|c r IH]; intros b; [constructor|]. simpl.
  destruct (utf8_char c) as [bc|e] eqn:Ec; [|discriminate].
  destruct (utf8 r) as [br|e] eqn:Er; [|discriminate].
  intros _. constructor; [exact (utf8_char_Ok c bc Ec) | exact (IH br eq_refl)].
Qed.

Lemma utf8_Raise (s : str) (e : exn) : utf8 s = Raise e -> e = UnicodeEncodeError.
Proof.
  induction s as [|c r IH]; [discriminate|]. simpl.
  destruct (utf8_char c) as [bc|e'] eqn:Ec.
  - destruct (utf8 r) as [br|e'']; [discriminate|].
    cbn [mbind result_bind]. intros [= <-]. now apply IH.
  - cbn [mbind result_bind]. intros [= <-]. exact (utf8_char_Raise c e' Ec).
Qed.

Lemma escalar_quote : es_escalar quote.
Proof. unfold es_escalar, quote. lia. Qed.

Lemma escalar_comma : es_escalar comma.
Proof. unfold es_escalar, comma. lia. Qed.

Lemma escalar_LF : es_escalar LF.
Proof. unfold es_escalar, LF. lia. Qed.

Lemma escalar_csv_field (f : str) :
  Forall es_escalar (csv_field f) <-> Forall es_escalar f.
Proof.
  unfold csv_field. destruct (existsb special f); [|reflexivity].
  rewrite List.Forall_cons_iff, List.Forall_app, List.Forall_flat_map.
  rewrite !List.Forall_forall. split.
  - intros (_ & H & _) c Hc. specialize (H c Hc).
    destruct (N.eqb_spec c quote) as [E|_]; [rewrite E; exact escalar_quote|].
    now apply List.Forall_inv in H.
  - intros H. split; [exact escalar_quote|]. split.
    + intros c Hc. pose proof escalar_quote. pose proof (H c Hc).
      destruct (c =? quote); auto.
    + intros c [<-|[]]. exact escalar_quote.
Qed.

Lemma escalar_join (l : list str) :
  Forall es_escalar (join comma l) <-> Forall (Forall es_escalar) l.
Proof.
  induction l as [|x r IH]; [split; constructor|].
  destruct r as [|y r].
  - cbn [join]. rewrite List.Forall_cons_iff. split; [intros H|tauto].
    split; [exact H | constructor].
  - change (join comma (x :: y :: r)) with (x ++ comma :: join comma (y :: r)).
    rewrite List.Forall_app, !List.Forall_cons_iff, IH, List.Forall_cons_iff.
    pose proof escalar_comma. tauto.
Qed.

Lemma escalar_writerow (fields : list str) :
  Forall es_escalar (writerow fields) <-> Forall (Forall es_escalar) fields.
Proof.
  assert (G : Forall es_escalar (join comma (List.map csv_field fields) ++ [LF])
              <-> Forall (Forall es_escalar) fields).
  { rewrite List.Forall_app, escalar_join, List.Forall_map.
    rewrite !List.Forall_forall. split.
    - intros (H & _) f Hf. apply escalar_csv_field, H, Hf.
    - intros H. split; [intros f Hf; apply escalar_csv_field, H, Hf|].
      intros c [<-|[]]. exact escalar_LF. }
  destruct fields as [|[|c f] [|g r]]; try exact G.
  pose proof escalar_quote. pose proof escalar_LF.
  unfold writerow. split; intros _; auto.
Qed.

Lemma escalar_writerows (recs : list (list str)) :
  Forall es_escalar (flat_map writerow recs)
  <-> Forall (Forall (Forall es_escalar)) recs.
Proof.
  rewrite List.Forall_flat_map, !List.Forall_forall.
  split; intros H r Hr; apply escalar_writerow, H, Hr.
Qed.

Section FalloDeExportar.
Context (w : World).

(** X20.  A CSV export succeeds exactly when every label and every cell
    text is free of surrogate code points and of code points beyond
    U+10FFFF: the commas, quotes and line ends the writer adds never
    make it fail.  When it fails, it fails with UnicodeEncodeError. *)
Theorem exportar_falla_por_sustituto (df : DataFrame) (formato : str) :
  formato <> u "excel" ->
  ((exists bs, generar_reporte_memoria w df formato = Ok bs)
   <-> Forall (Forall (Forall es_escalar)) (textos w df))
  /\ (forall e, generar_reporte_memoria w df formato = Raise e ->
        e = UnicodeEncodeError).
Proof.
  intros Hf. rewrite (generar_reporte_no_excel w df formato Hf).
  rewrite <- escalar_writerows, <- to_csv_textos. split; [split|].
  - intros [bs H]. destruct (utf8 (to_csv w df)) as [b|e] eqn:E; [|discriminate].
    exact (utf8_Ok _ b E).
  - intros H. destruct (utf8_escalar _ H) as [b ->]. eexists. reflexivity.
  - intros e H. destruct (utf8 (to_csv w df)) as [b|e'] eqn:E; [discriminate|].
    cbn [fmap result_fmap] in H. injection H as <-. exact (utf8_Raise _ e' E).
Qed.

End FalloDeExportar.

Lemma descarga_de_punta_a_punta_witness :
  exists cabecera registros,
    releer (BOM ++ u "timestamp,fecha_legible,cola,evento,numero_telefono" ++ [LF]
            ++ u "1700000000,2023-11-14 22:13:20,queueA,Login,5551234" ++ [LF])
    = Some (cabecera :: registros)
    /\ length registros = 1%nat.
Proof.
  assert (Hne : "uploads/queue_log"%string <> ""%string) by discriminate.
  assert (H : u "csv" <> u "excel") by (vm_compute; discriminate).
  assert (Hg : @generar basic_unicode escenario_mundo sesion_escenario (u "csv")
               = Ok (Attachment
                       (BOM ++ u "timestamp,fecha_legible,cola,evento,numero_telefono"
                        ++ [LF]
                        ++ u "1700000000,2023-11-14 22:13:20,queueA,Login,5551234"
                        ++ [LF])
                       "reporte.csv" "text/csv"))
    by (vm_compute; reflexivity).
  destruct (@descarga_de_punta_a_punta basic_unicode escenario_mundo
              sesion_escenario (u "csv") "uploads/queue_log"
              (escenario_linea ++ [0x0a]) _ "reporte.csv" "text/csv"
              eq_refl Hne eq_refl H Hg)
    as (cabecera & registros & H1 & H2 & _).
  exists cabecera, registros. split; [exact H1 | exact H2].
Defined.

Lemma exportar_falla_por_sustituto_witness :
  Forall (Forall (Forall es_escalar)) (textos escenario_mundo escenario_df).
Proof.
  assert (H : u "csv" <> u "excel") by (vm_compute; discriminate).
  exact (proj1 (proj1 (exportar_falla_por_sustituto escenario_mundo escenario_df
                         (u "csv") H))
           (ex_intro _ _ eq_refl)).
Defined.

(** A translation that holds a lone surrogate, as a JSON escape can
    give, ends up in a cell that cannot be exported. *)
Example exportar_sustituto :
  generar_reporte_memoria mundo_sin_eventos
    {| columns := ["timestamp"; "evento"]%string;
       rows := [[Some (VStr (u "1")); Some (VStr [0xd800])]] |} (u "csv")
  = Raise UnicodeEncodeError.
Proof. vm_compute. reflexivity. Qed.
